(** * Driver process supervisor of [src/main/main.ts]

    A shallow embedding of [startDriverBin] and of the ['ipc-example']
    message handler.  The closure variables of [startDriverBin] ([isFirst],
    [stderr]) become fields of a state record, every event listener becomes
    a state transformer, and an invocation is run over the list of signals
    the event loop delivers, in delivery order. *)

From Stdlib Require Import String Ascii List ZArith Bool Lia.
From Stdlib Require Import DecimalString.
Import ListNotations.
Open Scope string_scope.

(** ** The pieces of JavaScript the source relies on *)

Module Js.

(** [s.indexOf(pat)]: the position of the first occurrence of [pat] in [s];
    JavaScript's [-1] is [None]. *)
Definition indexOf (s pat : string) : option nat := String.index 0 pat s.

(** [`${n}`] for a number. *)
Definition number_toString (n : Z) : string :=
  NilZero.string_of_int (Z.to_int n).

(** [a === b] on positions returned by [indexOf]. *)
Definition position_is (p : option nat) (n : nat) : bool :=
  match p with
  | Some m => Nat.eqb m n
  | None => false
  end.

End Js.

(** ** Data *)

(** The object returned by [spawn]. *)
Record ChildProcess := { pid : nat }.

(** The argument of the ['exit'] event: a number, or [null] when the process
    was ended by a signal. *)
Definition exit_code := option Z.

Definition exit_code_toString (code : exit_code) : string :=
  match code with
  | Some n => Js.number_toString n
  | None => "null"
  end.

(** [code === 0] *)
Definition is_zero (code : exit_code) : bool :=
  match code with
  | Some n => Z.eqb n 0
  | None => false
  end.

(** The values [reject] is called with, one constructor per call site. *)
Inductive rejection :=
| ProbeFailed (err : string)          (* new Error(`Failed to start ChromeDriver: ${err}`) *)
| ProcessErrored (err : string)       (* the 'error' event's err *)
| ErrorText (text : string)           (* new Error(stderr) *)
| BadExitCode (code : exit_code)      (* new Error(`Exit code: ${code}`) *)
| SpawnThrew (err : string).          (* the exception caught around spawn *)

(** What the rejection value says: the [message] of a constructed [Error],
    the rendering of a foreign one. *)
Definition rejection_message (r : rejection) : string :=
  match r with
  | ProbeFailed err => "Failed to start ChromeDriver: " ++ err
  | ProcessErrored err => err
  | ErrorText text => text
  | BadExitCode code => "Exit code: " ++ exit_code_toString code
  | SpawnThrew err => err
  end.

(** A call of one of the promise's two resolving functions. *)
Inductive settlement :=
| Resolved (value : ChildProcess)
| Rejected (reason : rejection).

Inductive promise_state :=
| Pending
| Fulfilled (value : ChildProcess)
| RejectedWith (reason : rejection).

(** The options object handed to [waitPort]. *)
Record WaitPortParams := { wp_port : Z; wp_host : string; wp_timeout : Z }.

(** The promise returned by [waitPort]: not requested yet, requested and not
    settled, or settled (its [then]/[catch] callback has run). *)
Inductive probe_state :=
| NotStarted
| Polling (params : WaitPortParams)
| Finished (params : WaitPortParams).

(** Lines written to the two sinks, [log.debug] and [console.log]. *)
Inductive log_entry :=
| LogDebug (args : list string)
| ConsoleLog (args : list string).

(** The signals an invocation can receive: the four listeners registered on
    the child process and its pipes (['close'] is a listener of its own,
    beside ['exit']), and the two callbacks chained on [waitPort]'s promise. *)
Inductive signal :=
| StdoutData (data : string)
| StderrData (data : string)
| ProcessError (err : string)
| ProcessClose
| ProcessExit (code : exit_code)
| WaitPortFulfilled
| WaitPortRejected (err : string).

(** What [spawn] did. *)
Inductive spawn_result :=
| Spawned (program : ChildProcess)
| Threw (err : string).

(** The state of one invocation. [settle_calls] records every call of
    [resolve] and [reject], oldest first. *)
Record state := mkState {
  isFirst : bool;
  stderr : string;
  probe : probe_state;
  settle_calls : list settlement;
  output : list log_entry
}.

(** An Es6Promise keeps the first settlement; later calls of its resolving
    functions do nothing. *)
Definition promise (s : state) : promise_state :=
  match settle_calls s with
  | [] => Pending
  | Resolved v :: _ => Fulfilled v
  | Rejected r :: _ => RejectedWith r
  end.

(** ** State updates *)

Definition set_isFirst (b : bool) (s : state) : state :=
  mkState b (stderr s) (probe s) (settle_calls s) (output s).

Definition append_stderr (data : string) (s : state) : state :=
  mkState (isFirst s) (stderr s ++ data) (probe s) (settle_calls s) (output s).

Definition set_probe (p : probe_state) (s : state) : state :=
  mkState (isFirst s) (stderr s) p (settle_calls s) (output s).

Definition write (e : log_entry) (s : state) : state :=
  mkState (isFirst s) (stderr s) (probe s) (settle_calls s) (output s ++ [e]).

Definition settle (c : settlement) (s : state) : state :=
  mkState (isFirst s) (stderr s) (probe s) (settle_calls s ++ [c]) (output s).

Definition resolve (v : ChildProcess) : state -> state := settle (Resolved v).
Definition reject (r : rejection) : state -> state := settle (Rejected r).

(** ** The listeners of [startDriverBin] *)

Section Listeners.

Variable port : Z.
Variable program : ChildProcess.

(** [waitPort({ port, host: 'localhost', timeout: 3000 })] *)
Definition waitPort_params : WaitPortParams :=
  {| wp_port := port; wp_host := "localhost"; wp_timeout := 3000 |}.

Definition call_waitPort (s : state) : state :=
  set_probe (Polling waitPort_params) s.

(** [program.stdout.on('data', ...)] *)
Definition on_stdout_data (data : string) (s : state) : state :=
  let s := append_stderr data s in
  let s := write (LogDebug ["WEBDRIVER STDERR"; stderr s]) s in
  if negb (isFirst s) then s
  else call_waitPort (set_isFirst false s).

(** [program.stderr.on('data', ...)] *)
Definition on_stderr_data (data : string) (s : state) : state :=
  let s := append_stderr data s in
  write (ConsoleLog ["WEBDRIVER STDERR"; stderr s]) s.

(** [program.on('error', ...)] *)
Definition on_error (err : string) (s : state) : state :=
  let s := write (ConsoleLog ["WEBDRIVER ERROR"; err]) s in
  if negb (isFirst s) then s
  else reject (ProcessErrored err) (set_isFirst false s).

(** [program.on('close', ...)] *)
Definition on_close (s : state) : state :=
  write (ConsoleLog ["BROWSER WINDOW CLOSED"]) s.

(** [program.on('exit', ...)] *)
Definition on_exit (code : exit_code) (s : state) : state :=
  if negb (isFirst s) then s
  else
    let s := set_isFirst false s in
    if is_zero code then
      if Js.position_is (Js.indexOf (stderr s) "Error:") 0 then
        reject (ErrorText (stderr s)) (write (ConsoleLog [stderr s]) s)
      else resolve program s
    else
      reject (BadExitCode code)
        (write (ConsoleLog ["Exit code: " ++ exit_code_toString code]) s).

(** The [.then] callback of the probe. A promise runs its callbacks once, and
    only after it exists: outside [Polling] there is nothing to run. *)
Definition on_waitPort_then (s : state) : state :=
  match probe s with
  | Polling p => resolve program (set_probe (Finished p) s)
  | _ => s
  end.

(** The [.catch] callback of the probe. *)
Definition on_waitPort_catch (err : string) (s : state) : state :=
  match probe s with
  | Polling p =>
      reject (ProbeFailed err)
        (write (ConsoleLog [err]) (set_probe (Finished p) s))
  | _ => s
  end.

Definition deliver (s : state) (ev : signal) : state :=
  match ev with
  | StdoutData data => on_stdout_data data s
  | StderrData data => on_stderr_data data s
  | ProcessError err => on_error err s
  | ProcessClose => on_close s
  | ProcessExit code => on_exit code s
  | WaitPortFulfilled => on_waitPort_then s
  | WaitPortRejected err => on_waitPort_catch err s
  end.

(** The closure right after the listeners are registered:
    [let isFirst = true; let stderr = '';] *)
Definition spawned_state : state := mkState true "" NotStarted [] [].

Definition run (tr : list signal) : state := fold_left deliver tr spawned_state.

End Listeners.

(** The [catch] block: [console.log(err); reject(err);]. No listener was
    registered, so no signal reaches the invocation; [isFirst] and [stderr]
    were never declared and are shown with their initial values. *)
Definition threw_state (err : string) : state :=
  reject (SpawnThrew err) (write (ConsoleLog [err]) (mkState true "" NotStarted [] [])).

(** [startDriverBin(bin, port)], given what [spawn(bin, [`--port=${port}`])]
    did and the signals delivered afterwards. *)
Definition spawn_args (port : Z) : list string :=
  ["--port=" ++ Js.number_toString port].

Definition startDriverBin (bin : string) (port : Z)
    (sp : spawn_result) (tr : list signal) : state :=
  match sp with
  | Spawned program => run port program tr
  | Threw err => threw_state err
  end.

(** ** The ['ipc-example'] listener *)

(** What the two awaited calls inside the [try] block do:
    [webdriverio.remote(...)] throws, or [browser.executeAsync(...)] throws,
    or both return. *)
Inductive webdriver_run :=
| RemoteThrew (e : string)
| ExecuteAsyncThrew (e : string)
| GotUserAgent (userAgent : string).

(** How a run of the [async] listener stands: suspended at
    [await startDriverBin(...)], returned, or ended by an exception that no
    [catch] of the listener took (the listener's own promise is rejected). *)
Inductive completion :=
| AwaitingDriver
| Returned
| Escaped (reason : rejection).

Record listener_run := mkListenerRun {
  replies : list (string * string);     (* event.reply(channel, payload) *)
  listener_output : list log_entry;
  completion_of : completion
}.

(** The [try { ... } catch(e) { console.log("ERROR IN WEBDRIVER", e) }] block. *)
Definition webdriver_session (w : webdriver_run) : list log_entry :=
  match w with
  | RemoteThrew e => [ConsoleLog ["ERROR IN WEBDRIVER"; e]]
  | ExecuteAsyncThrew e => [ConsoleLog ["ERROR IN WEBDRIVER"; e]]
  | GotUserAgent _ => []
  end.

(** The listener from the point where it awaits the driver promise.  The
    [await] stands before the [try]: a rejection leaves the function there. *)
Definition ipc_example_listener (driver : promise_state) (w : webdriver_run)
    : listener_run :=
  match driver with
  | Pending => mkListenerRun [] [] AwaitingDriver
  | RejectedWith r => mkListenerRun [] [] (Escaped r)
  | Fulfilled _ =>
      mkListenerRun [("ipc-example", "pong")] (webdriver_session w) Returned
  end.

(** [ipcMain.on('ipc-example', ...)]: [bin] is the path of the bundled
    [chromedriver], resolved by Node from [__dirname]; the port is 4445. *)
Definition on_ipc_example (bin : string) (sp : spawn_result)
    (tr : list signal) (w : webdriver_run) : listener_run :=
  ipc_example_listener (promise (startDriverBin bin 4445 sp tr)) w.

(** ** Vocabulary for the statements *)

(** The signals whose listener tests the guard [isFirst]. *)
Definition meaningful (ev : signal) : bool :=
  match ev with
  | StdoutData _ | ProcessError _ | ProcessExit _ => true
  | _ => false
  end.

(** The signals of the four sources the child process offers. *)
Definition from_process (ev : signal) : bool :=
  match ev with
  | WaitPortFulfilled | WaitPortRejected _ => false
  | _ => true
  end.

Definition is_stdout (ev : signal) : bool :=
  match ev with
  | StdoutData _ => true
  | _ => false
  end.

(** The standard-error chunks of a trace, concatenated in arrival order. *)
Fixpoint stderr_text (tr : list signal) : string :=
  match tr with
  | [] => ""
  | StderrData data :: tr' => data ++ stderr_text tr'
  | _ :: tr' => stderr_text tr'
  end.

(** The chunks of both pipes, concatenated in arrival order. *)
Fixpoint captured_text (tr : list signal) : string :=
  match tr with
  | [] => ""
  | StdoutData data :: tr' => data ++ captured_text tr'
  | StderrData data :: tr' => data ++ captured_text tr'
  | _ :: tr' => captured_text tr'
  end.

(** The four kinds of failure the routine reports, by the place that
    rejects: the exit listener on a code other than zero, the exit listener
    on captured error text, the ['error'] listener or the [catch] around
    [spawn], and the [.catch] callback of the probe. *)
Inductive failure_case :=
| NonZeroExitCode
| DetectedErrorString
| SpawnError
| ProbeRejection.

Definition failure_case_of (r : rejection) : failure_case :=
  match r with
  | ProbeFailed _ => ProbeRejection
  | ProcessErrored _ => SpawnError
  | ErrorText _ => DetectedErrorString
  | BadExitCode _ => NonZeroExitCode
  | SpawnThrew _ => SpawnError
  end.

(** The [wait-port] package is not part of this repository. By its
    contract the promise that [waitPort] returns is fulfilled with
    [{ open: true }] once a connection succeeds, fulfilled with
    [{ open: false }] when the timeout elapses first (a refused connection
    is retried until then), and rejected on any other error. *)
Inductive wait_port_result :=
| PortOpened
| PortTimedOut
| PortWaitFailed (err : string).

(** The signal each result delivers to the invocation. The [.then] callback
    of [startDriverBin] takes no argument, so both fulfilments are one and
    the same signal. *)
Definition waitPort_settles (r : wait_port_result) : signal :=
  match r with
  | PortOpened => WaitPortFulfilled
  | PortTimedOut => WaitPortFulfilled
  | PortWaitFailed err => WaitPortRejected err
  end.

Definition is_pending (p : promise_state) : bool :=
  match p with
  | Pending => true
  | _ => false
  end.

Definition is_probe_outcome (ev : signal) : bool :=
  match ev with
  | WaitPortFulfilled | WaitPortRejected _ => true
  | _ => false
  end.

Definition is_stderr (ev : signal) : bool :=
  match ev with
  | StderrData _ => true
  | _ => false
  end.

Definition silent (ev : signal) : bool := negb (meaningful ev).

(** A trace holds enough evidence for an outcome when its first meaningful
    signal is a process error or an exit, or is a standard-output chunk that
    the probe's answer follows. *)
Fixpoint decisive (tr : list signal) : bool :=
  match tr with
  | [] => false
  | StdoutData _ :: tr' => existsb is_probe_outcome tr'
  | ProcessError _ :: _ => true
  | ProcessExit _ :: _ => true
  | _ :: tr' => decisive tr'
  end.

(** Two states that differ at most in the captured text and in what was
    written to the sinks. *)
Definition same_control (s1 s2 : state) : Prop :=
  isFirst s1 = isFirst s2 /\ probe s1 = probe s2 /\
  settle_calls s1 = settle_calls s2.

(** How far the probe has come. *)
Definition probe_rank (p : probe_state) : nat :=
  match p with
  | NotStarted => 0
  | Polling _ => 1
  | Finished _ => 2
  end.

(** The line each [reject] call site writes to the console just before. *)
Definition console_line (r : rejection) : log_entry :=
  match r with
  | ProbeFailed err => ConsoleLog [err]
  | ProcessErrored err => ConsoleLog ["WEBDRIVER ERROR"; err]
  | ErrorText text => ConsoleLog [text]
  | BadExitCode code => ConsoleLog ["Exit code: " ++ exit_code_toString code]
  | SpawnThrew err => ConsoleLog [err]
  end.


(** The shapes a state of a spawned invocation can have. *)
Inductive phase (port : Z) (program : ChildProcess) : state -> Prop :=
| phase_listening text out :
    phase port program (mkState true text NotStarted [] out)
| phase_probing text out :
    phase port program
      (mkState false text (Polling (waitPort_params port)) [] out)
| phase_probe_open text out :
    phase port program
      (mkState false text (Finished (waitPort_params port))
         [Resolved program] out)
| phase_probe_failed text out err :
    phase port program
      (mkState false text (Finished (waitPort_params port))
         [Rejected (ProbeFailed err)] out)
| phase_exited_clean text out :
    phase port program (mkState false text NotStarted [Resolved program] out)
| phase_failed text out r :
    failure_case_of r <> ProbeRejection ->
    phase port program (mkState false text NotStarted [Rejected r] out).

(** ** The application: environment, window and lifecycle listeners *)

(** [process.env.NAME]: a string, or [undefined]. *)
Definition Env := string -> option string.

(** JavaScript truthiness of a string or [undefined], as in [!!v] and
    [if (v)]: [undefined] and the empty string are falsy. *)
Definition truthy (v : option string) : bool :=
  match v with
  | None => false
  | Some s => negb (String.eqb s "")
  end.

(** [v === 'literal'] for a string or [undefined]. *)
Definition strict_eq (v : option string) (literal : string) : bool :=
  match v with
  | None => false
  | Some s => String.eqb s literal
  end.

(** What the module reads from the process and the framework. [path_join]
    is Node's [path.join] and [resolveHtmlPath] the function of [./util]. *)
Record Host := mkHost {
  env : Env;
  platform : string;                    (* process.platform *)
  isPackaged : bool;                    (* app.isPackaged *)
  dirname : string;                     (* __dirname *)
  resourcesPath : string;               (* process.resourcesPath *)
  path_join : list string -> string;
  resolveHtmlPath : string -> string
}.

(** [process.env.NODE_ENV === 'development' ||
     process.env.DEBUG_PROD === 'true'] *)
Definition isDebug (h : Host) : bool :=
  strict_eq (env h "NODE_ENV") "development"
  || strict_eq (env h "DEBUG_PROD") "true".

(** The options object of [new BrowserWindow]. *)
Record WindowOptions := mkWindowOptions {
  opt_show : bool;
  opt_width : Z;
  opt_height : Z;
  opt_icon : string;
  opt_preload : string
}.

Definition RESOURCES_PATH (h : Host) : string :=
  if isPackaged h then path_join h [resourcesPath h; "assets"]
  else path_join h [dirname h; "../../assets"].

Definition getAssetPath (h : Host) (paths : list string) : string :=
  path_join h (RESOURCES_PATH h :: paths).

Definition window_options (h : Host) : WindowOptions :=
  {| opt_show := false;
     opt_width := 1024;
     opt_height := 728;
     opt_icon := getAssetPath h ["icon.png"];
     opt_preload :=
       if isPackaged h then path_join h [dirname h; "preload.js"]
       else path_join h [dirname h; "../../.erb/dll/preload.js"] |}.

(** The calls the module makes into the framework and the console, in the
    order it makes them. Windows are numbered in the order of creation. *)
Inductive effect :=
| SourceMapSupportInstall               (* sourceMapSupport.install() *)
| ElectronDebug                         (* require('electron-debug')() *)
| InstallExtensions (names : list string) (forceDownload : bool)
| Console (args : list string)          (* console.log *)
| NewBrowserWindow (w : nat) (opts : WindowOptions)
| WindowLoadURL (w : nat) (url : string)
| BuildMenu (w : nat)
| SetFileLogLevel (level : string)      (* log.transports.file.level = ... *)
| SetUpdaterLogger                      (* autoUpdater.logger = log *)
| CheckForUpdatesAndNotify
| MinimizeWindow (w : nat)
| ShowWindow (w : nat)
| OpenExternal (url : string)           (* shell.openExternal(url) *)
| WindowOpenAnswer (w : nat) (action : string)
| AppQuit                               (* app.quit() *)
| Uncaught (message : string).          (* an exception leaving a listener *)

(** The events the framework delivers to the listeners of the module. *)
Inductive app_event :=
| WhenReady                             (* app.whenReady() is fulfilled *)
| Activate
| ExtensionsInstalled (failure : option string)
| ReadyToShow (w : nat)
| Closed (w : nat)
| WindowOpen (w : nat) (url : string)
| WindowAllClosed.

(** The module's variable [mainWindow], and what the framework holds for
    it: the windows constructed and not yet closed, the number constructed,
    the calls of [createWindow] suspended at [await installExtensions()],
    and whether the ['activate'] listener is registered. *)
Record app := mkApp {
  mainWindow : option nat;
  open_windows : list nat;
  created : nat;
  installing : nat;
  activate_registered : bool;
  effects : list effect
}.

Definition perform (es : list effect) (a : app) : app :=
  mkApp (mainWindow a) (open_windows a) (created a) (installing a)
    (activate_registered a) (effects a ++ es).

Definition is_open (w : nat) (a : app) : bool :=
  existsb (Nat.eqb w) (open_windows a).

Definition double_quote : string := String (Ascii.ascii_of_nat 34) "".

(** The message of the error thrown by the ['ready-to-show'] listener:
    the word mainWindow in double quotes, then [ is not defined]. *)
Definition mainWindow_not_defined : string :=
  double_quote ++ "mainWindow" ++ double_quote ++ " is not defined".

(** [new AppUpdater()] *)
Definition AppUpdater : app -> app :=
  perform [SetFileLogLevel "info"; SetUpdaterLogger; CheckForUpdatesAndNotify].

(** [installExtensions]: the call of the installer; its promise carries a
    [.catch(console.log)], which runs when it settles. *)
Definition installExtensions (h : Host) : app -> app :=
  perform [InstallExtensions ["REACT_DEVELOPER_TOOLS"]
             (truthy (env h "UPGRADE_EXTENSIONS"))].

(** [createWindow] from the assignment of [mainWindow] on. *)
Definition createWindow_body (h : Host) (a : app) : app :=
  let w := created a in
  AppUpdater
    (perform [NewBrowserWindow w (window_options h);
              WindowLoadURL w (resolveHtmlPath h "index.html");
              BuildMenu w]
       (mkApp (Some w) (open_windows a ++ [w]) (S w) (installing a)
          (activate_registered a) (effects a))).

(** [createWindow()]: in debug mode it suspends at
    [await installExtensions()] and goes on when that settles. *)
Definition createWindow (h : Host) (a : app) : app :=
  if isDebug h then
    let a := installExtensions h a in
    mkApp (mainWindow a) (open_windows a) (created a) (S (installing a))
      (activate_registered a) (effects a)
  else createWindow_body h a.

(** The installer's promise settles: a failure is handed to [console.log],
    and in both cases the suspended [createWindow] goes on. *)
Definition on_extensions_installed (h : Host) (failure : option string)
    (a : app) : app :=
  match installing a with
  | O => a
  | S n =>
      let a := match failure with
               | Some err => perform [Console [err]] a
               | None => a
               end in
      createWindow_body h
        (mkApp (mainWindow a) (open_windows a) (created a) n
           (activate_registered a) (effects a))
  end.

(** [mainWindow.on('ready-to-show', ...)], registered on window [w]. *)
Definition on_ready_to_show (h : Host) (w : nat) (a : app) : app :=
  if is_open w a then
    match mainWindow a with
    | None => perform [Uncaught mainWindow_not_defined] a
    | Some m =>
        if truthy (env h "START_MINIMIZED") then perform [MinimizeWindow m] a
        else perform [ShowWindow m] a
    end
  else a.

(** [mainWindow.on('closed', ...)], registered on window [w]. *)
Definition on_closed (w : nat) (a : app) : app :=
  if is_open w a then
    mkApp None (filter (fun x => negb (Nat.eqb x w)) (open_windows a))
      (created a) (installing a) (activate_registered a) (effects a)
  else a.

(** The handler given to [setWindowOpenHandler] of window [w]. *)
Definition on_window_open (w : nat) (url : string) (a : app) : app :=
  if is_open w a then perform [OpenExternal url; WindowOpenAnswer w "deny"] a
  else a.

(** [app.on('window-all-closed', ...)] *)
Definition on_window_all_closed (h : Host) (a : app) : app :=
  if negb (String.eqb (platform h) "darwin") then perform [AppQuit] a else a.

(** [app.on('activate', ...)], registered once the app is ready. *)
Definition on_activate (h : Host) (a : app) : app :=
  if activate_registered a then
    match mainWindow a with
    | None => createWindow h a
    | Some _ => a
    end
  else a.

(** The [.then] callback of [app.whenReady()]; it runs once. *)
Definition on_ready (h : Host) (a : app) : app :=
  if activate_registered a then a
  else
    let a := createWindow h a in
    mkApp (mainWindow a) (open_windows a) (created a) (installing a) true
      (effects a).

Definition app_step (h : Host) (a : app) (ev : app_event) : app :=
  match ev with
  | WhenReady => on_ready h a
  | Activate => on_activate h a
  | ExtensionsInstalled failure => on_extensions_installed h failure a
  | ReadyToShow w => on_ready_to_show h w a
  | Closed w => on_closed w a
  | WindowOpen w url => on_window_open w url a
  | WindowAllClosed => on_window_all_closed h a
  end.

(** What the module does when it is loaded: [let mainWindow = null], the
    source-map support in production, [electron-debug] in debug mode. *)
Definition loaded (h : Host) : app :=
  mkApp None [] 0 0 false
    ((if strict_eq (env h "NODE_ENV") "production"
      then [SourceMapSupportInstall] else [])
     ++ (if isDebug h then [ElectronDebug] else [])).

Definition app_run (h : Host) (tr : list app_event) : app :=
  fold_left (app_step h) tr (loaded h).

Definition is_quit (e : effect) : bool :=
  match e with AppQuit => true | _ => false end.

Definition is_update_check (e : effect) : bool :=
  match e with CheckForUpdatesAndNotify => true | _ => false end.

Definition is_new_window (e : effect) : bool :=
  match e with NewBrowserWindow _ _ => true | _ => false end.

Definition is_build_menu (e : effect) : bool :=
  match e with BuildMenu _ => true | _ => false end.

Definition is_uncaught (e : effect) : bool :=
  match e with Uncaught _ => true | _ => false end.

Definition constructs_window (w : nat) (e : effect) : bool :=
  match e with NewBrowserWindow w' _ => Nat.eqb w w' | _ => false end.

Definition loads_url_into (w : nat) (e : effect) : bool :=
  match e with WindowLoadURL w' _ => Nat.eqb w w' | _ => false end.

Definition builds_menu_for (w : nat) (e : effect) : bool :=
  match e with BuildMenu w' => Nat.eqb w w' | _ => false end.

Definition is_window_all_closed (ev : app_event) : bool :=
  match ev with WindowAllClosed => true | _ => false end.

(** Two hosts for the examples: a packaged build on Linux started with
    [START_MINIMIZED=false], and a development run on macOS. *)
Definition release_host : Host :=
  mkHost (fun name => if String.eqb name "START_MINIMIZED" then Some "false"
                      else None)
    "linux" true "/opt/app/dist/main" "/opt/app/resources"
    (String.concat "/") (fun file => "file://" ++ file).


(** ** Runs, one signal at a time *)

Lemma run_app port program (tr1 tr2 : list signal) :
  run port program (tr1 ++ tr2)
  = fold_left (deliver port program) tr2 (run port program tr1).
Proof. unfold run. apply fold_left_app. Qed.

Lemma run_snoc port program (tr : list signal) (ev : signal) :
  run port program (tr ++ [ev]) = deliver port program (run port program tr) ev.
Proof. rewrite run_app. reflexivity. Qed.

Lemma indexOf_zero_prefix (s pat : string) :
  Js.position_is (Js.indexOf s pat) 0 = String.prefix pat s.
Proof.
  unfold Js.indexOf. destruct s as [|a s]; simpl.
  - destruct pat; reflexivity.
  - destruct pat as [|b pat]; simpl; [reflexivity|].
    destruct (ascii_dec b a); [|destruct (index 0 (String b pat) s); reflexivity].
    destruct (prefix pat s); [reflexivity|].
    destruct (index 0 (String b pat) s); reflexivity.
Qed.

Ltac handlers :=
  unfold deliver, on_stdout_data, on_stderr_data, on_error, on_close, on_exit,
    on_waitPort_then, on_waitPort_catch, call_waitPort, resolve, reject,
    settle, write, set_probe, set_isFirst, append_stderr in *; simpl in *.

Lemma phase_deliver port program (s : state) (ev : signal) :
  phase port program s -> phase port program (deliver port program s ev).
Proof.
  intros H; destruct H; destruct ev; handlers;
    try (destruct (is_zero code);
         [destruct (Js.position_is _ _)|]);
    try (constructor; simpl; congruence).
Qed.

Lemma phase_run port program (tr : list signal) :
  phase port program (run port program tr).
Proof.
  induction tr as [|ev tr IH] using rev_ind.
  - apply phase_listening.
  - rewrite run_snoc. apply phase_deliver, IH.
Qed.

(** ** The captured text *)

Lemma string_app_assoc (a b c : string) : (a ++ b) ++ c = a ++ (b ++ c).
Proof. induction a as [|x a IH]; simpl; [reflexivity | now rewrite IH]. Qed.

Lemma string_app_nil_r (a : string) : a ++ "" = a.
Proof. induction a as [|x a IH]; simpl; [reflexivity | now rewrite IH]. Qed.

Lemma captured_text_app (tr1 tr2 : list signal) :
  captured_text (tr1 ++ tr2) = captured_text tr1 ++ captured_text tr2.
Proof.
  induction tr1 as [|ev tr1 IH]; simpl; [reflexivity|].
  destruct ev; simpl; rewrite IH; try reflexivity;
    now rewrite string_app_assoc.
Qed.

Lemma stderr_text_app (tr1 tr2 : list signal) :
  stderr_text (tr1 ++ tr2) = stderr_text tr1 ++ stderr_text tr2.
Proof.
  induction tr1 as [|ev tr1 IH]; simpl; [reflexivity|].
  destruct ev; simpl; rewrite IH; try reflexivity;
    now rewrite string_app_assoc.
Qed.

Lemma captured_text_silent (tr : list signal) :
  forallb silent tr = true -> captured_text tr = stderr_text tr.
Proof.
  induction tr as [|ev tr IH]; simpl; [reflexivity|].
  intros H. apply andb_true_iff in H as [Hev Htr].
  destruct ev; simpl in *; try discriminate; rewrite (IH Htr); reflexivity.
Qed.

Lemma stderr_text_no_stderr (tr : list signal) :
  existsb is_stderr tr = false -> stderr_text tr = "".
Proof.
  induction tr as [|ev tr IH]; simpl; [reflexivity|].
  intros H. apply orb_false_iff in H as [Hev Htr].
  destruct ev; simpl in *; try discriminate; exact (IH Htr).
Qed.

Ltac branches s :=
  repeat match goal with
         | |- context [if ?b then _ else _] => destruct b
         | |- context [match probe s with _ => _ end] => destruct (probe s)
         end; simpl.

Lemma stderr_deliver port program (s : state) (ev : signal) :
  stderr (deliver port program s ev) = stderr s ++ captured_text [ev].
Proof.
  destruct ev; handlers; branches s; rewrite ?string_app_nil_r; reflexivity.
Qed.

Lemma stderr_run port program (tr : list signal) :
  stderr (run port program tr) = captured_text tr.
Proof.
  induction tr as [|ev tr IH] using rev_ind; [reflexivity|].
  rewrite run_snoc, stderr_deliver, captured_text_app, IH. reflexivity.
Qed.

(** ** The guard *)

Lemma isFirst_deliver port program (s : state) (ev : signal) :
  isFirst (deliver port program s ev) = isFirst s && silent ev.
Proof.
  destruct ev; handlers; unfold silent; simpl;
    destruct (isFirst s) eqn:E; simpl; branches s; rewrite ?E; reflexivity.
Qed.

Lemma isFirst_run port program (tr : list signal) :
  isFirst (run port program tr) = forallb silent tr.
Proof.
  induction tr as [|ev tr IH] using rev_ind; [reflexivity|].
  rewrite run_snoc, isFirst_deliver, forallb_app, IH. simpl.
  now rewrite andb_true_r.
Qed.

(** While the guard is set nothing has been settled and no probe exists. *)
Lemma phase_guard_set port program (s : state) :
  phase port program s -> isFirst s = true ->
  probe s = NotStarted /\ settle_calls s = [].
Proof. intros H; destruct H; simpl; intros E; try discriminate; auto. Qed.

Lemma listening_run port program (tr : list signal) :
  forallb silent tr = true ->
  isFirst (run port program tr) = true /\
  probe (run port program tr) = NotStarted /\
  settle_calls (run port program tr) = [] /\
  stderr (run port program tr) = stderr_text tr.
Proof.
  intros H. assert (E : isFirst (run port program tr) = true)
    by now rewrite isFirst_run.
  destruct (phase_guard_set _ _ _ (phase_run port program tr) E) as [Hp Hc].
  repeat split; auto. rewrite stderr_run. now apply captured_text_silent.
Qed.

(** ** After the guard is cleared *)

(** A settled invocation ignores every later signal. *)
Lemma settled_deliver port program (s : state) (ev : signal) :
  isFirst s = false -> (forall p, probe s <> Polling p) ->
  same_control (deliver port program s ev) s.
Proof.
  intros Hf Hp. unfold same_control.
  destruct ev; handlers; rewrite ?Hf; simpl; auto.
  - destruct (probe s) eqn:E; simpl; auto. now destruct (Hp params).
  - destruct (probe s) eqn:E; simpl; auto. now destruct (Hp params).
Qed.

Lemma settled_fold port program (tr : list signal) (s : state) :
  isFirst s = false -> (forall p, probe s <> Polling p) ->
  same_control (fold_left (deliver port program) tr s) s.
Proof.
  revert s. induction tr as [|ev tr IH]; intros s Hf Hp; simpl.
  - unfold same_control; auto.
  - destruct (settled_deliver port program s ev Hf Hp) as (E1 & E2 & E3).
    destruct (IH (deliver port program s ev)) as (F1 & F2 & F3).
    + congruence.
    + intros p. rewrite E2. apply Hp.
    + unfold same_control. repeat split; congruence.
Qed.

(** Signals of the child process leave a cleared guard, the probe and the
    settlement as they are. *)
Lemma cleared_deliver port program (s : state) (ev : signal) :
  isFirst s = false -> from_process ev = true ->
  same_control (deliver port program s ev) s.
Proof.
  intros Hf Hev. unfold same_control.
  destruct ev; handlers; rewrite ?Hf; simpl; auto; discriminate.
Qed.

Lemma cleared_fold port program (tr : list signal) (s : state) :
  isFirst s = false -> forallb from_process tr = true ->
  same_control (fold_left (deliver port program) tr s) s.
Proof.
  revert s. induction tr as [|ev tr IH]; intros s Hf Htr; simpl in *.
  - unfold same_control; auto.
  - apply andb_true_iff in Htr as [Hev Htr].
    destruct (cleared_deliver port program s ev Hf Hev) as (E1 & E2 & E3).
    destruct (IH (deliver port program s ev)) as (F1 & F2 & F3);
      [congruence | assumption |].
    unfold same_control. repeat split; congruence.
Qed.

(** With the guard cleared the captured text is never read again: states
    that agree on guard, probe and settlement stay in agreement. *)
Lemma same_control_deliver port program (s1 s2 : state) (ev : signal) :
  isFirst s1 = false -> same_control s1 s2 ->
  same_control (deliver port program s1 ev) (deliver port program s2 ev).
Proof.
  intros Hf (E1 & E2 & E3). assert (Hf2 : isFirst s2 = false) by congruence.
  unfold same_control.
  destruct ev; handlers; rewrite ?Hf, ?Hf2; simpl; auto;
    rewrite <- E2; destruct (probe s1) eqn:Ep; simpl; auto;
    repeat split; congruence.
Qed.

Lemma same_control_fold port program (tr : list signal) (s1 s2 : state) :
  isFirst s1 = false -> same_control s1 s2 ->
  same_control (fold_left (deliver port program) tr s1)
               (fold_left (deliver port program) tr s2).
Proof.
  revert s1 s2. induction tr as [|ev tr IH]; intros s1 s2 Hf H; simpl; auto.
  apply IH.
  - rewrite isFirst_deliver, Hf. reflexivity.
  - now apply same_control_deliver.
Qed.

Lemma same_control_promise (s1 s2 : state) :
  same_control s1 s2 -> promise s1 = promise s2.
Proof. intros (_ & _ & E). unfold promise. now rewrite E. Qed.

(** ** While the probe is polling *)

Lemma polling_then port program (s : state) (p : WaitPortParams) :
  probe s = Polling p -> settle_calls s = [] ->
  settle_calls (deliver port program s WaitPortFulfilled) = [Resolved program]
  /\ probe (deliver port program s WaitPortFulfilled) = Finished p.
Proof. intros Hp Hc. handlers. rewrite Hp; simpl. now rewrite Hc. Qed.

Lemma polling_catch port program (s : state) (p : WaitPortParams) err :
  probe s = Polling p -> settle_calls s = [] ->
  settle_calls (deliver port program s (WaitPortRejected err))
  = [Rejected (ProbeFailed err)]
  /\ probe (deliver port program s (WaitPortRejected err)) = Finished p.
Proof. intros Hp Hc. handlers. rewrite Hp; simpl. now rewrite Hc. Qed.

Lemma polling_answer port program (s : state) (p : WaitPortParams)
    (mid post : list signal) (ev : signal) :
  isFirst s = false -> probe s = Polling p -> settle_calls s = [] ->
  forallb from_process mid = true -> is_probe_outcome ev = true ->
  settle_calls (fold_left (deliver port program) (mid ++ ev :: post) s)
  = settle_calls (deliver port program
                    (fold_left (deliver port program) mid s) ev)
  /\ length (settle_calls (fold_left (deliver port program)
                             (mid ++ ev :: post) s)) = 1.
Proof.
  intros Hf Hp Hc Hmid Hev.
  destruct (cleared_fold port program mid s Hf Hmid) as (E1 & E2 & E3).
  set (s1 := fold_left (deliver port program) mid s) in *.
  rewrite fold_left_app; simpl. fold s1.
  assert (Hs1 : isFirst (deliver port program s1 ev) = false
                /\ probe (deliver port program s1 ev) = Finished p
                /\ length (settle_calls (deliver port program s1 ev)) = 1).
  { rewrite isFirst_deliver, E1, Hf. split; [reflexivity|].
    destruct ev; try discriminate.
    - destruct (polling_then port program s1 p) as [A B]; try congruence.
      now rewrite A, B.
    - destruct (polling_catch port program s1 p err) as [A B]; try congruence.
      now rewrite A, B. }
  destruct Hs1 as (F1 & F2 & F3).
  destruct (settled_fold port program post (deliver port program s1 ev) F1)
    as (_ & _ & G); [intros q; rewrite F2; discriminate|].
  rewrite G. auto.
Qed.

Lemma polling_count port program (tr : list signal) (s : state)
    (p : WaitPortParams) :
  isFirst s = false -> probe s = Polling p -> settle_calls s = [] ->
  length (settle_calls (fold_left (deliver port program) tr s))
  = if existsb is_probe_outcome tr then 1 else 0.
Proof.
  revert s. induction tr as [|ev tr IH]; intros s Hf Hp Hc; simpl.
  - now rewrite Hc.
  - destruct (is_probe_outcome ev) eqn:Hev; simpl.
    + destruct (polling_answer port program s p [] tr ev) as [_ L]; auto.
    + assert (Hfp : from_process ev = true) by (destruct ev; auto; discriminate).
      destruct (cleared_deliver port program s ev Hf Hfp) as (E1 & E2 & E3).
      apply IH; congruence.
Qed.

(** ** While the guard is set *)

Lemma listening_count port program (tr : list signal) (s : state) :
  isFirst s = true -> probe s = NotStarted -> settle_calls s = [] ->
  length (settle_calls (fold_left (deliver port program) tr s))
  = if decisive tr then 1 else 0.
Proof.
  revert s. induction tr as [|ev tr IH]; intros s Hf Hp Hc; simpl.
  - now rewrite Hc.
  - assert (settled : forall s', isFirst s' = false -> probe s' = NotStarted ->
              length (settle_calls s') = 1 ->
              length (settle_calls (fold_left (deliver port program) tr s')) = 1).
    { intros s' A B C.
      destruct (settled_fold port program tr s' A) as (_ & _ & G);
        [intros q; rewrite B; discriminate | now rewrite G]. }
    destruct ev.
    + apply (polling_count port program tr _ (waitPort_params port));
        handlers; rewrite ?Hf; simpl; auto.
    + apply IH; handlers; auto.
    + apply settled; handlers; rewrite ?Hf; simpl; auto. now rewrite Hc.
    + apply IH; handlers; auto.
    + apply settled; handlers; rewrite ?Hf; simpl;
        branches s; simpl; auto; now rewrite Hc.
    + apply IH; handlers; rewrite ?Hp; auto.
    + apply IH; handlers; rewrite ?Hp; auto.
Qed.

(** ** Settlement count *)

(** C1, as amended: the promise of [startDriverBin] is settled at most once
    on every interleaving of the signals, and the resolving functions are
    called exactly once precisely when [spawn] threw or the trace is
    decisive (a process error or an exit came first, or a standard-output
    chunk came first and the probe answered); otherwise it stays pending. *)
Theorem startDriverBin_settles_at_most_once
    (bin : string) (port : Z) (sp : spawn_result) (tr : list signal) :
  length (settle_calls (startDriverBin bin port sp tr)) <= 1 /\
  length (settle_calls (startDriverBin bin port sp tr))
  = match sp with
    | Threw _ => 1
    | Spawned _ => if decisive tr then 1 else 0
    end /\
  is_pending (promise (startDriverBin bin port sp tr))
  = match sp with
    | Threw _ => false
    | Spawned _ => negb (decisive tr)
    end.
Proof.
  assert (L : length (settle_calls (startDriverBin bin port sp tr))
    = match sp with
      | Threw _ => 1
      | Spawned _ => if decisive tr then 1 else 0
      end).
  { destruct sp as [program|err]; simpl; [|reflexivity].
    now apply listening_count. }
  split; [|split]; [| exact L |].
  - rewrite L. destruct sp; [destruct (decisive tr)|]; lia.
  - unfold promise. destruct (settle_calls _) as [|[v|r] l]; simpl in L;
      destruct sp; try destruct (decisive tr); simpl; congruence.
Qed.

(** C1, as stated, fails: a driver that writes to standard error only and
    keeps running leaves the promise unsettled. *)
Lemma startDriverBin_may_stay_pending :
  length (settle_calls
            (startDriverBin "chromedriver" 4445 (Spawned {| pid := 1 |})
               [StderrData "Starting"; StderrData " up"]))
  <> 1.
Proof. vm_compute. discriminate. Qed.

(** ** The first meaningful signal *)

Lemma exit_first port program (s : state) (code : exit_code) :
  isFirst s = true -> settle_calls s = [] ->
  settle_calls (deliver port program s (ProcessExit code))
  = [if is_zero code then
       if Js.position_is (Js.indexOf (stderr s) "Error:") 0
       then Rejected (ErrorText (stderr s))
       else Resolved program
     else Rejected (BadExitCode code)]
  /\ probe (deliver port program s (ProcessExit code)) = probe s.
Proof.
  intros Hf Hc. handlers. rewrite Hf; simpl.
  destruct (is_zero code); [destruct (Js.position_is _ _)|]; simpl;
    now rewrite Hc.
Qed.

Lemma stdout_first port program (s : state) (data : string) :
  isFirst s = true ->
  isFirst (deliver port program s (StdoutData data)) = false /\
  probe (deliver port program s (StdoutData data))
  = Polling (waitPort_params port) /\
  settle_calls (deliver port program s (StdoutData data)) = settle_calls s.
Proof. intros Hf. handlers. rewrite Hf; simpl. auto. Qed.

Lemma promise_of_calls (s : state) (c : settlement) :
  settle_calls s = [c] ->
  promise s = match c with
              | Resolved v => Fulfilled v
              | Rejected r => RejectedWith r
              end.
Proof. intros E. unfold promise. rewrite E. now destruct c. Qed.

(** C2: when the exit event is the first meaningful signal and its code is
    zero, the text accumulated so far is the error-stream text; the routine
    rejects with an error carrying that text when the text begins with
    ['Error:'] (the marker stands at position 0), and resolves otherwise, also
    when ['Error:'] occurs further inside the text; later signals change
    nothing. *)
Theorem clean_exit_first_inspects_error_text
    (bin : string) (port : Z) (program : ChildProcess)
    (pre post : list signal) :
  forallb silent pre = true ->
  stderr (startDriverBin bin port (Spawned program) pre) = stderr_text pre /\
  promise (startDriverBin bin port (Spawned program)
             (pre ++ ProcessExit (Some 0%Z) :: post))
  = (if String.prefix "Error:" (stderr_text pre)
     then RejectedWith (ErrorText (stderr_text pre))
     else Fulfilled program) /\
  rejection_message (ErrorText (stderr_text pre)) = stderr_text pre.
Proof.
  intros Hpre. unfold startDriverBin.
  destruct (listening_run port program pre Hpre) as (Hf & Hp & Hc & Ht).
  split; [exact Ht|]. split; [|reflexivity].
  rewrite run_app. cbn [fold_left].
  destruct (exit_first port program _ (Some 0%Z) Hf Hc) as [E Ep].
  simpl in E. rewrite Ht, indexOf_zero_prefix in E.
  set (s1 := deliver port program (run port program pre)
               (ProcessExit (Some 0%Z))) in *.
  assert (F : isFirst s1 = false)
    by (unfold s1; rewrite isFirst_deliver, Hf; reflexivity).
  destruct (settled_fold port program post s1 F) as (_ & _ & G).
  { intros q. rewrite Ep, Hp. discriminate. }
  rewrite (promise_of_calls _ _ (eq_trans G E)).
  destruct (String.prefix _ _); reflexivity.
Qed.

Lemma clean_exit_first_inspects_error_text_witness :
  (forallb silent [StderrData "Error: "; ProcessClose; StderrData "no chrome"]
   = true /\
   promise (startDriverBin "chromedriver" 4445 (Spawned {| pid := 7 |})
              ([StderrData "Error: "; ProcessClose; StderrData "no chrome"]
               ++ ProcessExit (Some 0%Z) :: [StdoutData "late"]))
   = RejectedWith (ErrorText "Error: no chrome")) /\
  (forallb silent [StderrData "warning: Error: x"] = true /\
   promise (startDriverBin "chromedriver" 4445 (Spawned {| pid := 7 |})
              ([StderrData "warning: Error: x"]
               ++ ProcessExit (Some 0%Z) :: []))
   = Fulfilled {| pid := 7 |}) /\
  (forallb silent [] = true /\
   promise (startDriverBin "chromedriver" 4445 (Spawned {| pid := 7 |})
              ([] ++ ProcessExit (Some 0%Z) :: []))
   = Fulfilled {| pid := 7 |}).
Proof.
  split; [|split]; (split; [reflexivity|]).
  - exact (proj1 (proj2 (clean_exit_first_inspects_error_text
      "chromedriver" 4445 {| pid := 7 |}
      [StderrData "Error: "; ProcessClose; StderrData "no chrome"]
      [StdoutData "late"] eq_refl))).
  - exact (proj1 (proj2 (clean_exit_first_inspects_error_text
      "chromedriver" 4445 {| pid := 7 |}
      [StderrData "warning: Error: x"] [] eq_refl))).
  - exact (proj1 (proj2 (clean_exit_first_inspects_error_text
      "chromedriver" 4445 {| pid := 7 |} [] [] eq_refl))).
Defined.

(** The first standard-output chunk, when no meaningful signal came before,
    calls [waitPort] for the given port on localhost with a timeout of
    3000 ms; the [.then] callback resolves the promise with the spawned
    process handle, the [.catch] callback rejects it with an error that says
    so. *)
Lemma first_stdout_chunk_probe_callbacks
    (bin : string) (port : Z) (program : ChildProcess)
    (pre : list signal) (data : string) :
  forallb silent pre = true ->
  probe (startDriverBin bin port (Spawned program) pre) = NotStarted /\
  probe (startDriverBin bin port (Spawned program) (pre ++ [StdoutData data]))
  = Polling {| wp_port := port; wp_host := "localhost"; wp_timeout := 3000 |} /\
  promise (startDriverBin bin port (Spawned program)
             (pre ++ [StdoutData data])) = Pending /\
  promise (startDriverBin bin port (Spawned program)
             (pre ++ [StdoutData data; WaitPortFulfilled]))
  = Fulfilled program /\
  forall err,
    promise (startDriverBin bin port (Spawned program)
               (pre ++ [StdoutData data; WaitPortRejected err]))
    = RejectedWith (ProbeFailed err) /\
    rejection_message (ProbeFailed err)
    = "Failed to start ChromeDriver: " ++ err.
Proof.
  intros Hpre. unfold startDriverBin.
  destruct (listening_run port program pre Hpre) as (Hf & Hp & Hc & _).
  destruct (stdout_first port program _ data Hf) as (F1 & F2 & F3).
  rewrite Hc in F3.
  split; [exact Hp|]. rewrite run_snoc. split; [exact F2|].
  split; [unfold promise; now rewrite F3|].
  split; [|intros err; split; [|reflexivity]].
  - rewrite run_app. cbn [fold_left].
    destruct (polling_then port program _ _ F2 F3) as [A _].
    now rewrite (promise_of_calls _ _ A).
  - rewrite run_app. cbn [fold_left].
    destruct (polling_catch port program _ _ err F2 F3) as [A _].
    now rewrite (promise_of_calls _ _ A).
Qed.

(** C3, at a driver whose port never opens: the first standard-output chunk
    starts the probe with a timeout of 3000 ms, and a successful connection
    resolves the promise with the spawned process handle; but when the
    timeout elapses, [wait-port] fulfils its promise all the same, the
    [.then] callback does not look at the value, and the promise is resolved
    with the handle instead of being rejected. Only a rejection of
    [wait-port]'s promise, which a timeout is not, rejects the routine. *)
Theorem port_timeout_resolves_instead_of_rejecting
    (bin : string) (port : Z) (program : ChildProcess)
    (pre : list signal) (data : string) :
  forallb silent pre = true ->
  probe (startDriverBin bin port (Spawned program) (pre ++ [StdoutData data]))
  = Polling {| wp_port := port; wp_host := "localhost"; wp_timeout := 3000 |} /\
  promise (startDriverBin bin port (Spawned program)
             (pre ++ [StdoutData data; waitPort_settles PortOpened]))
  = Fulfilled program /\
  promise (startDriverBin bin port (Spawned program)
             (pre ++ [StdoutData data; waitPort_settles PortTimedOut]))
  = Fulfilled program /\
  forall err,
    promise (startDriverBin bin port (Spawned program)
               (pre ++ [StdoutData data; waitPort_settles (PortWaitFailed err)]))
    = RejectedWith (ProbeFailed err).
Proof.
  intros Hpre.
  destruct (first_stdout_chunk_probe_callbacks bin port program pre data Hpre)
    as (_ & P & _ & F & R).
  repeat split; auto. intros err. apply R.
Qed.

Lemma port_timeout_resolves_instead_of_rejecting_witness :
  forallb silent [StderrData "warming up"] = true /\
  promise (startDriverBin "chromedriver" 4445 (Spawned {| pid := 7 |})
             ([StderrData "warming up"]
              ++ [StdoutData "ChromeDriver was started";
                  waitPort_settles PortTimedOut]))
  = Fulfilled {| pid := 7 |}.
Proof.
  split; [reflexivity|].
  exact (proj1 (proj2 (proj2 (port_timeout_resolves_instead_of_rejecting
    "chromedriver" 4445 {| pid := 7 |} [StderrData "warming up"]
    "ChromeDriver was started" eq_refl)))).
Defined.

(** C10: when a standard-output chunk is the first meaningful signal, the
    guard is already cleared while the probe is polling; no signal of the
    child process that follows settles the promise, and the outcome is the
    probe's: resolved with the handle when it succeeds, rejected with the
    probe's failure when it fails. *)
Theorem stdout_first_leaves_outcome_to_probe
    (bin : string) (port : Z) (program : ChildProcess)
    (pre mid post : list signal) (data : string) :
  forallb silent pre = true -> forallb from_process mid = true ->
  isFirst (startDriverBin bin port (Spawned program)
             (pre ++ [StdoutData data])) = false /\
  probe (startDriverBin bin port (Spawned program)
           (pre ++ StdoutData data :: mid))
  = Polling (waitPort_params port) /\
  promise (startDriverBin bin port (Spawned program)
             (pre ++ StdoutData data :: mid)) = Pending /\
  promise (startDriverBin bin port (Spawned program)
             (pre ++ StdoutData data :: mid ++ WaitPortFulfilled :: post))
  = Fulfilled program /\
  forall err,
    promise (startDriverBin bin port (Spawned program)
               (pre ++ StdoutData data :: mid ++ WaitPortRejected err :: post))
    = RejectedWith (ProbeFailed err).
Proof.
  intros Hpre Hmid. unfold startDriverBin.
  destruct (listening_run port program pre Hpre) as (Hf & Hp & Hc & _).
  destruct (stdout_first port program _ data Hf) as (F1 & F2 & F3).
  rewrite Hc in F3. rewrite run_snoc. split; [exact F1|].
  set (s1 := deliver port program (run port program pre) (StdoutData data))
    in *.
  destruct (cleared_fold port program mid s1 F1 Hmid) as (E1 & E2 & E3).
  assert (R : forall l, run port program (pre ++ StdoutData data :: l)
                        = fold_left (deliver port program) l s1)
    by (intros l; rewrite run_app; reflexivity).
  rewrite !R. split; [congruence|].
  split; [unfold promise; now rewrite E3, F3|].
  split; [|intros err; rewrite R].
  - destruct (polling_answer port program s1 _ mid post WaitPortFulfilled
                F1 F2 F3 Hmid eq_refl) as [A _].
    destruct (polling_then port program
                (fold_left (deliver port program) mid s1)
                (waitPort_params port)) as [B _]; try congruence.
    now rewrite (promise_of_calls _ _ (eq_trans A B)).
  - destruct (polling_answer port program s1 _ mid post (WaitPortRejected err)
                F1 F2 F3 Hmid eq_refl) as [A _].
    destruct (polling_catch port program
                (fold_left (deliver port program) mid s1)
                (waitPort_params port) err) as [B _]; try congruence.
    now rewrite (promise_of_calls _ _ (eq_trans A B)).
Qed.

Lemma stdout_first_leaves_outcome_to_probe_witness :
  forallb silent [ProcessClose] = true /\
  forallb from_process [ProcessError "EPIPE"; ProcessExit (Some 1%Z)] = true /\
  promise (startDriverBin "chromedriver" 4445 (Spawned {| pid := 7 |})
             ([ProcessClose] ++ StdoutData "Starting ChromeDriver"
              :: [ProcessError "EPIPE"; ProcessExit (Some 1%Z)]
              ++ WaitPortRejected "timeout" :: [ProcessExit (Some 0%Z)]))
  = RejectedWith (ProbeFailed "timeout").
Proof.
  split; [reflexivity|]. split; [reflexivity|].
  exact (proj2 (proj2 (proj2 (proj2 (stdout_first_leaves_outcome_to_probe
    "chromedriver" 4445 {| pid := 7 |} [ProcessClose]
    [ProcessError "EPIPE"; ProcessExit (Some 1%Z)]
    [ProcessExit (Some 0%Z)] "Starting ChromeDriver" eq_refl eq_refl))))
    "timeout").
Defined.

(** C8: every call of [resolve], and so every fulfilment of the promise,
    carries the handle of the process spawned by this invocation. *)
Theorem resolved_value_is_spawned_process
    (bin : string) (port : Z) (sp : spawn_result) (tr : list signal)
    (v : ChildProcess) :
  In (Resolved v) (settle_calls (startDriverBin bin port sp tr)) \/
  promise (startDriverBin bin port sp tr) = Fulfilled v ->
  sp = Spawned v.
Proof.
  intros H.
  assert (Hin : In (Resolved v) (settle_calls (startDriverBin bin port sp tr))).
  { destruct H as [H|H]; [exact H|]. unfold promise in H.
    destruct (settle_calls _) as [|[w|r] l]; try discriminate.
    injection H as ->. now left. }
  clear H. destruct sp as [program|err]; simpl in Hin.
  - destruct (phase_run port program tr); simpl in Hin;
      intuition congruence.
  - intuition congruence.
Qed.

Lemma resolved_value_is_spawned_process_witness :
  promise (startDriverBin "chromedriver" 4445 (Spawned {| pid := 7 |})
             [ProcessExit (Some 0%Z)]) = Fulfilled {| pid := 7 |} /\
  Spawned {| pid := 7 |} = Spawned {| pid := 7 |}.
Proof.
  split; [reflexivity|].
  exact (resolved_value_is_spawned_process "chromedriver" 4445
           (Spawned {| pid := 7 |}) [ProcessExit (Some 0%Z)] {| pid := 7 |}
           (or_intror eq_refl)).
Defined.

(** ** Where a rejection comes from *)

Lemma is_zero_true (code : exit_code) : is_zero code = true -> code = Some 0%Z.
Proof.
  destruct code as [n|]; simpl; [|discriminate].
  intros H. apply Z.eqb_eq in H. now subst.
Qed.


Lemma probe_params port program (tr : list signal) (p : WaitPortParams) :
  probe (run port program tr) = Polling p \/
  probe (run port program tr) = Finished p ->
  p = {| wp_port := port; wp_host := "localhost"; wp_timeout := 3000 |}.
Proof.
  destruct (phase_run port program tr); simpl;
    intros [E|E]; try discriminate; now injection E as <-.
Qed.

Lemma polling_origin port program (tr : list signal) (p : WaitPortParams) :
  probe (run port program tr) = Polling p ->
  exists pre data mid,
    tr = (pre ++ StdoutData data :: mid)%list /\
    forallb silent pre = true /\ forallb from_process mid = true.
Proof.
  induction tr as [|ev tr IH] using rev_ind; [discriminate|].
  rewrite run_snoc. intros H.
  destruct (isFirst (run port program tr)) eqn:Hf.
  - destruct (phase_guard_set _ _ _ (phase_run port program tr) Hf)
      as [Hp _].
    destruct ev;
      try (exfalso; revert H; handlers; rewrite ?Hf, ?Hp; simpl;
           branches (run port program tr); rewrite ?Hp; discriminate).
    exists tr, data, []. rewrite isFirst_run in Hf. auto.
  - destruct (from_process ev) eqn:Hev.
    + destruct (cleared_deliver port program _ ev Hf Hev) as (_ & E & _).
      rewrite E in H. destruct (IH H) as (pre & d & mid & -> & A & B).
      exists pre, d, (mid ++ [ev])%list. rewrite <- app_assoc. simpl.
      repeat split; auto. rewrite forallb_app, B. simpl. now rewrite Hev.
    + exfalso. revert H. destruct ev; try discriminate; handlers;
        destruct (probe (run port program tr)) eqn:Ep; simpl;
        rewrite ?Ep; discriminate.
Qed.









(** ** Signals after the guard is cleared *)

Lemma exit_after_guard port program (s : state) (code : exit_code) :
  isFirst s = false -> deliver port program s (ProcessExit code) = s.
Proof. intros Hf. handlers. now rewrite Hf. Qed.

(** C5, as amended: once the guard is cleared, a later signal of the four
    sources changes neither the guard, nor the probe, nor the settlement,
    and the outcome the promise ends with is the same as without it; an exit
    event is dropped whole. Chunks of both pipes are still appended to the
    captured text and logged with it, and process errors and closes are
    still logged. *)
Theorem later_signals_keep_outcome
    (bin : string) (port : Z) (program : ChildProcess)
    (pre post : list signal) (ev : signal) :
  isFirst (startDriverBin bin port (Spawned program) pre) = false ->
  from_process ev = true ->
  same_control (startDriverBin bin port (Spawned program) (pre ++ [ev]))
               (startDriverBin bin port (Spawned program) pre) /\
  promise (startDriverBin bin port (Spawned program) (pre ++ ev :: post))
  = promise (startDriverBin bin port (Spawned program) (pre ++ post)) /\
  (forall code, ev = ProcessExit code ->
     startDriverBin bin port (Spawned program) (pre ++ [ev])
     = startDriverBin bin port (Spawned program) pre) /\
  (forall data, ev = StdoutData data ->
     stderr (startDriverBin bin port (Spawned program) (pre ++ [ev]))
     = (stderr (startDriverBin bin port (Spawned program) pre) ++ data)%string
     /\
     output (startDriverBin bin port (Spawned program) (pre ++ [ev]))
     = (output (startDriverBin bin port (Spawned program) pre)
        ++ [LogDebug ["WEBDRIVER STDERR";
                      (stderr (startDriverBin bin port (Spawned program) pre)
                       ++ data)%string]])%list) /\
  (forall data, ev = StderrData data ->
     stderr (startDriverBin bin port (Spawned program) (pre ++ [ev]))
     = (stderr (startDriverBin bin port (Spawned program) pre) ++ data)%string
     /\
     output (startDriverBin bin port (Spawned program) (pre ++ [ev]))
     = (output (startDriverBin bin port (Spawned program) pre)
        ++ [ConsoleLog ["WEBDRIVER STDERR";
                        (stderr (startDriverBin bin port (Spawned program) pre)
                         ++ data)%string]])%list) /\
  (forall err, ev = ProcessError err ->
     stderr (startDriverBin bin port (Spawned program) (pre ++ [ev]))
     = stderr (startDriverBin bin port (Spawned program) pre) /\
     output (startDriverBin bin port (Spawned program) (pre ++ [ev]))
     = (output (startDriverBin bin port (Spawned program) pre)
        ++ [ConsoleLog ["WEBDRIVER ERROR"; err]])%list) /\
  (ev = ProcessClose ->
     stderr (startDriverBin bin port (Spawned program) (pre ++ [ev]))
     = stderr (startDriverBin bin port (Spawned program) pre) /\
     output (startDriverBin bin port (Spawned program) (pre ++ [ev]))
     = (output (startDriverBin bin port (Spawned program) pre)
        ++ [ConsoleLog ["BROWSER WINDOW CLOSED"]])%list).
Proof.
  unfold startDriverBin. intros Hf Hev.
  assert (C := cleared_deliver port program _ ev Hf Hev).
  split; [|split; [|split; [|split; [|split; [|split]]]]].
  - now rewrite run_snoc.
  - rewrite !run_app. cbn [fold_left]. apply same_control_promise.
    apply same_control_fold; [|exact C].
    now rewrite isFirst_deliver, Hf.
  - intros code ->. rewrite run_snoc. now apply exit_after_guard.
  - intros data ->. rewrite run_snoc. handlers. rewrite Hf. simpl. auto.
  - intros data ->. rewrite run_snoc. handlers. auto.
  - intros err ->. rewrite run_snoc. handlers. rewrite Hf. simpl. auto.
  - intros ->. rewrite run_snoc. handlers. auto.
Qed.

Lemma later_signals_keep_outcome_witness :
  (isFirst (startDriverBin "chromedriver" 4445 (Spawned {| pid := 7 |})
              [StdoutData "Starting"]) = false /\
   promise (startDriverBin "chromedriver" 4445 (Spawned {| pid := 7 |})
              ([StdoutData "Starting"] ++ ProcessExit (Some 1%Z)
               :: [WaitPortFulfilled]))
   = promise (startDriverBin "chromedriver" 4445 (Spawned {| pid := 7 |})
                ([StdoutData "Starting"] ++ [WaitPortFulfilled]))) /\
  (isFirst (startDriverBin "chromedriver" 4445 (Spawned {| pid := 7 |})
              [ProcessExit (Some 1%Z)]) = false /\
   stderr (startDriverBin "chromedriver" 4445 (Spawned {| pid := 7 |})
             ([ProcessExit (Some 1%Z)] ++ [StderrData "late"]))
   = "late" /\
   output (startDriverBin "chromedriver" 4445 (Spawned {| pid := 7 |})
             ([ProcessExit (Some 1%Z)] ++ [StderrData "late"]))
   = [ConsoleLog ["Exit code: 1"];
      ConsoleLog ["WEBDRIVER STDERR"; "late"]]).
Proof.
  split; (split; [reflexivity|]).
  - exact (proj1 (proj2 (later_signals_keep_outcome "chromedriver" 4445
      {| pid := 7 |} [StdoutData "Starting"] [WaitPortFulfilled]
      (ProcessExit (Some 1%Z)) eq_refl eq_refl))).
  - exact (proj1 (proj2 (proj2 (proj2 (proj2
      (later_signals_keep_outcome "chromedriver" 4445 {| pid := 7 |}
         [ProcessExit (Some 1%Z)] [] (StderrData "late") eq_refl eq_refl)))))
      "late" eq_refl).
Defined.

(** C5, as stated, fails: after an exit with code 1 has cleared the guard, a
    standard-error chunk still changes the state (the captured text). *)
Lemma late_stderr_chunk_changes_state :
  isFirst (startDriverBin "chromedriver" 4445 (Spawned {| pid := 7 |})
             [ProcessExit (Some 1%Z)]) = false /\
  startDriverBin "chromedriver" 4445 (Spawned {| pid := 7 |})
    ([ProcessExit (Some 1%Z)] ++ [StderrData "late"])
  <> startDriverBin "chromedriver" 4445 (Spawned {| pid := 7 |})
       [ProcessExit (Some 1%Z)].
Proof. split; [reflexivity|]. vm_compute. discriminate. Qed.

(** ** The captured text and the clean-exit check *)

Lemma error_text_origin port program (tr : list signal) (text : string) :
  In (Rejected (ErrorText text)) (settle_calls (run port program tr)) ->
  exists pre post,
    tr = (pre ++ ProcessExit (Some 0%Z) :: post)%list /\
    forallb silent pre = true /\
    text = stderr_text pre /\
    String.prefix "Error:" text = true.
Proof.
  induction tr as [|ev tr IH] using rev_ind; [intros []|].
  rewrite run_snoc. intros H.
  assert (Old : In (Rejected (ErrorText text))
                  (settle_calls (run port program tr)) ->
                exists pre post,
                  (tr ++ [ev] = pre ++ ProcessExit (Some 0%Z) :: post)%list /\
                  forallb silent pre = true /\ text = stderr_text pre /\
                  String.prefix "Error:" text = true).
  { intros O. destruct (IH O) as (pre & post & -> & A & B & C).
    exists pre, (post ++ [ev])%list. rewrite <- app_assoc. auto. }
  assert (Hl := listening_run port program tr).
  rewrite <- isFirst_run with (port := port) (program := program) in Hl.
  set (s := run port program tr) in *.
  destruct ev; handlers.
  - destruct (isFirst s); simpl in H; auto.
  - auto.
  - destruct (isFirst s); simpl in H; auto.
    apply in_app_or in H as [H|[H|[]]]; auto; discriminate.
  - auto.
  - destruct (isFirst s) eqn:Hf; simpl in H; auto.
    destruct (is_zero code) eqn:Z;
      [destruct (Js.position_is _ _) eqn:P|]; simpl in H;
      apply in_app_or in H as [H|[H|[]]]; auto; try discriminate.
    injection H as <-. destruct (Hl eq_refl) as (_ & _ & _ & T).
    exists tr, []. rewrite (is_zero_true _ Z).
    rewrite indexOf_zero_prefix in P.
    repeat split; auto. unfold s in Hf. now rewrite isFirst_run in Hf.
  - destruct (probe s); simpl in H; auto.
    apply in_app_or in H as [H|[H|[]]]; auto; discriminate.
  - destruct (probe s); simpl in H; auto.
    apply in_app_or in H as [H|[H|[]]]; auto; discriminate.
Qed.

Lemma stdout_clears_guard port program (tr : list signal) (data : string) :
  In (StdoutData data) tr -> isFirst (run port program tr) = false.
Proof.
  intros H. rewrite isFirst_run. apply not_true_is_false. intros A.
  rewrite forallb_forall in A. specialize (A _ H). discriminate.
Qed.

Lemma probe_decides_after_first_stdout port program
    (pre mid post : list signal) (data : string) :
  forallb silent pre = true -> forallb from_process mid = true ->
  settle_calls (run port program (pre ++ StdoutData data :: mid)) = [] /\
  settle_calls (run port program
                  (pre ++ StdoutData data :: mid ++ WaitPortFulfilled :: post))
  = [Resolved program] /\
  forall err,
    settle_calls (run port program
                    (pre ++ StdoutData data :: mid
                     ++ WaitPortRejected err :: post))
    = [Rejected (ProbeFailed err)].
Proof.
  intros Hpre Hmid.
  destruct (listening_run port program pre Hpre) as (Hf & _ & Hc & _).
  destruct (stdout_first port program _ data Hf) as (F1 & F2 & F3).
  rewrite Hc in F3.
  set (s1 := deliver port program (run port program pre) (StdoutData data))
    in *.
  destruct (cleared_fold port program mid s1 F1 Hmid) as (E1 & E2 & E3).
  assert (R : forall l, run port program (pre ++ StdoutData data :: l)
                        = fold_left (deliver port program) l s1)
    by (intros l; rewrite run_app; reflexivity).
  rewrite !R. split; [congruence|]. split; [|intros err; rewrite R].
  - destruct (polling_answer port program s1 _ mid post WaitPortFulfilled
                F1 F2 F3 Hmid eq_refl) as [A _].
    destruct (polling_then port program
                (fold_left (deliver port program) mid s1)
                (waitPort_params port)) as [B _]; congruence.
  - destruct (polling_answer port program s1 _ mid post (WaitPortRejected err)
                F1 F2 F3 Hmid eq_refl) as [A _].
    destruct (polling_catch port program
                (fold_left (deliver port program) mid s1)
                (waitPort_params port) err) as [B _]; congruence.
Qed.

(** C9, as amended: the text buffer is the concatenation, in arrival order,
    of all standard-output and all standard-error chunks; but the clean-exit
    check reads it only while the guard is set, when no standard-output
    chunk has arrived: the text it rejects with is made of standard-error
    chunks alone, and an exit that follows a standard-output chunk is
    dropped without a look at the buffer. When that chunk was the first
    meaningful signal, the promise stays pending after the exit and is then
    settled by the probe's callbacks alone: resolved with the handle when
    [wait-port]'s promise is fulfilled, rejected with the probe's error when
    it is rejected. *)
Theorem captured_text_and_clean_exit_check
    (bin : string) (port : Z) (program : ChildProcess) (tr : list signal) :
  stderr (startDriverBin bin port (Spawned program) tr) = captured_text tr /\
  (forall text,
     In (Rejected (ErrorText text))
        (settle_calls (startDriverBin bin port (Spawned program) tr)) ->
     exists pre post,
       tr = (pre ++ ProcessExit (Some 0%Z) :: post)%list /\
       existsb is_stdout pre = false /\
       text = stderr_text pre) /\
  (forall data code,
     In (StdoutData data) tr ->
     startDriverBin bin port (Spawned program) (tr ++ [ProcessExit code])
     = startDriverBin bin port (Spawned program) tr) /\
  (forall pre data mid code post,
     tr = (pre ++ StdoutData data :: mid)%list ->
     forallb silent pre = true -> forallb from_process mid = true ->
     promise (startDriverBin bin port (Spawned program)
                (tr ++ [ProcessExit code])) = Pending /\
     promise (startDriverBin bin port (Spawned program)
                (tr ++ ProcessExit code :: WaitPortFulfilled :: post))
     = Fulfilled program /\
     forall err,
       promise (startDriverBin bin port (Spawned program)
                  (tr ++ ProcessExit code :: WaitPortRejected err :: post))
       = RejectedWith (ProbeFailed err)).
Proof.
  unfold startDriverBin. split; [apply stderr_run|]. split; [|split].
  - intros text H.
    destruct (error_text_origin port program tr text H)
      as (pre & post & E & S & T & _).
    exists pre, post. repeat split; auto.
    apply not_true_is_false. intros A. apply existsb_exists in A.
    destruct A as (ev & Hin & Hev). rewrite forallb_forall in S.
    specialize (S _ Hin). destruct ev; discriminate.
  - intros data code H. rewrite run_snoc. apply exit_after_guard.
    now apply (stdout_clears_guard port program tr data).
  - intros pre data mid code post -> Hpre Hmid.
    assert (Hmid' : forallb from_process (mid ++ [ProcessExit code]) = true)
      by (rewrite forallb_app, Hmid; reflexivity).
    destruct (probe_decides_after_first_stdout port program pre
                (mid ++ [ProcessExit code]) post data Hpre Hmid')
      as (A & B & C).
    assert (L : forall l,
              ((pre ++ StdoutData data :: mid) ++ ProcessExit code :: l
               = pre ++ StdoutData data :: (mid ++ [ProcessExit code]) ++ l)
              %list)
      by (intros l; rewrite <- !app_assoc; simpl; rewrite <- ?app_assoc;
          reflexivity).
    rewrite !L. split; [|split; [|intros err; rewrite L]].
    + rewrite app_nil_r. unfold promise. now rewrite A.
    + now rewrite (promise_of_calls _ _ B).
    + now rewrite (promise_of_calls _ _ (C err)).
Qed.

Lemma captured_text_and_clean_exit_check_witness :
  (In (StdoutData "Error: boom") [StdoutData "Error: boom"] /\
   startDriverBin "chromedriver" 4445 (Spawned {| pid := 7 |})
     ([StdoutData "Error: boom"] ++ [ProcessExit (Some 0%Z)])
   = startDriverBin "chromedriver" 4445 (Spawned {| pid := 7 |})
       [StdoutData "Error: boom"]) /\
  (forallb silent [] = true /\ forallb from_process [] = true /\
   promise (startDriverBin "chromedriver" 4445 (Spawned {| pid := 7 |})
              ([StdoutData "Error: boom"]
               ++ ProcessExit (Some 0%Z) :: WaitPortFulfilled :: []))
   = Fulfilled {| pid := 7 |}).
Proof.
  split.
  - split; [now left|].
    exact (proj1 (proj2 (proj2 (captured_text_and_clean_exit_check
      "chromedriver" 4445 {| pid := 7 |} [StdoutData "Error: boom"])))
      "Error: boom" (Some 0%Z) (or_introl eq_refl)).
  - split; [reflexivity|]. split; [reflexivity|].
    exact (proj1 (proj2 (proj2 (proj2 (proj2
      (captured_text_and_clean_exit_check "chromedriver" 4445 {| pid := 7 |}
         [StdoutData "Error: boom"])))
      [] "Error: boom" [] (Some 0%Z) [] eq_refl eq_refl eq_refl))).
Defined.

(** C9, as stated, fails: no process whose ['Error:'] chunk arrives on
    standard output only, and which then exits with code zero, is rejected
    by the clean-exit check. *)
Lemma stdout_error_text_never_rejects_on_clean_exit :
  ~ exists (tr : list signal) (data text : string),
      In (StdoutData data) tr /\ String.prefix "Error:" data = true /\
      existsb is_stderr tr = false /\
      In (ProcessExit (Some 0%Z)) tr /\
      promise (startDriverBin "chromedriver" 4445 (Spawned {| pid := 7 |}) tr)
      = RejectedWith (ErrorText text).
Proof.
  intros (tr & data & text & _ & _ & Hno & _ & H).
  unfold promise in H.
  destruct (settle_calls _) as [|[v|r] l] eqn:E; try discriminate.
  injection H as ->.
  destruct (error_text_origin 4445 {| pid := 7 |} tr text)
    as (pre & post & -> & _ & -> & P).
  { unfold startDriverBin in E. rewrite E. now left. }
  rewrite existsb_app in Hno. apply orb_false_iff in Hno as [Hno _].
  rewrite (stderr_text_no_stderr _ Hno) in P. discriminate.
Qed.

(** On the trace of such a process the exit changes nothing; the promise
    waits for the probe and takes its answer. *)
Example stdout_error_text_resolves_when_port_opens :
  promise (startDriverBin "chromedriver" 4445 (Spawned {| pid := 7 |})
             [StdoutData "Error: boom"; ProcessExit (Some 0%Z)]) = Pending /\
  promise (startDriverBin "chromedriver" 4445 (Spawned {| pid := 7 |})
             [StdoutData "Error: boom"; ProcessExit (Some 0%Z);
              WaitPortFulfilled]) = Fulfilled {| pid := 7 |}.
Proof. split; reflexivity. Qed.

(** ** The ['ipc-example'] listener *)

Lemma output_deliver port program (s : state) (ev : signal) :
  exists l, output (deliver port program s ev) = (output s ++ l)%list.
Proof.
  destruct ev; handlers; branches s;
    try (now exists []; rewrite app_nil_r);
    try (eexists; reflexivity).
Qed.

(** Inside [startDriverBin] every failure is written to the console where it
    is found, before the promise is rejected with it. *)
Lemma rejection_is_logged
    (bin : string) (port : Z) (sp : spawn_result) (tr : list signal)
    (r : rejection) :
  In (Rejected r) (settle_calls (startDriverBin bin port sp tr)) ->
  In (console_line r) (output (startDriverBin bin port sp tr)).
Proof.
  destruct sp as [program|err]; simpl.
  - induction tr as [|ev tr IH] using rev_ind; [intros []|].
    rewrite run_snoc. intros H.
    destruct (output_deliver port program (run port program tr) ev) as [l El].
    assert (Old : In (Rejected r) (settle_calls (run port program tr)) ->
                  In (console_line r)
                     (output (deliver port program (run port program tr) ev)))
      by (intros O; rewrite El; apply in_or_app; left; apply IH, O).
    clear El. set (s := run port program tr) in *.
    destruct ev; handlers; auto.
    + destruct (isFirst s); simpl in *; auto.
    + destruct (isFirst s); simpl in *; auto.
      apply in_app_or in H as [H|[H|[]]]; auto.
      injection H as <-. apply in_elt.
    + destruct (isFirst s); simpl in *; auto.
      destruct (is_zero code); [destruct (Js.position_is _ _)|]; simpl in *;
        apply in_app_or in H as [H|[H|[]]]; auto; try discriminate;
        injection H as <-; apply in_elt.
    + destruct (probe s); simpl in *; auto.
      apply in_app_or in H as [H|[H|[]]]; auto; discriminate.
    + destruct (probe s); simpl in *; auto.
      apply in_app_or in H as [H|[H|[]]]; auto.
      injection H as <-. apply in_elt.
  - intros [E|[]]. injection E as <-. now left.
Qed.

(** C6, at an inbound message whose driver exits with code 1: the rejection
    of [startDriverBin] is not taken by the listener's [catch], which
    encloses the WebDriver calls only; it leaves the listener, which writes
    nothing and sends no reply. *)
Theorem driver_rejection_escapes_listener (bin : string) (w : webdriver_run) :
  on_ipc_example bin (Spawned {| pid := 7 |}) [ProcessExit (Some 1%Z)] w
  = mkListenerRun [] [] (Escaped (BadExitCode (Some 1%Z))).
Proof. reflexivity. Qed.

(** What the [catch] of the listener does take: a failure of the WebDriver
    session is written to the console and the reply is still sent. *)
Lemma webdriver_failure_is_logged (bin : string) (e : string) :
  on_ipc_example bin (Spawned {| pid := 7 |}) [ProcessExit (Some 0%Z)]
    (RemoteThrew e)
  = mkListenerRun [("ipc-example", "pong")]
      [ConsoleLog ["ERROR IN WEBDRIVER"; e]] Returned.
Proof. reflexivity. Qed.

(** C7, as amended: for an inbound message whose driver promise resolves,
    the listener runs the WebDriver session and sends exactly one reply,
    ['pong'] on ['ipc-example'], whether the session succeeds or fails; while
    the driver promise is pending no reply is sent. *)
Theorem reply_follows_driver_resolution
    (bin : string) (sp : spawn_result) (tr : list signal) (w : webdriver_run) :
  (forall v, promise (startDriverBin bin 4445 sp tr) = Fulfilled v ->
     replies (on_ipc_example bin sp tr w) = [("ipc-example", "pong")] /\
     listener_output (on_ipc_example bin sp tr w) = webdriver_session w /\
     completion_of (on_ipc_example bin sp tr w) = Returned) /\
  (promise (startDriverBin bin 4445 sp tr) = Pending ->
     replies (on_ipc_example bin sp tr w) = [] /\
     completion_of (on_ipc_example bin sp tr w) = AwaitingDriver).
Proof.
  unfold on_ipc_example. split.
  - intros v ->. simpl. auto.
  - intros ->. simpl. auto.
Qed.

Lemma reply_follows_driver_resolution_witness :
  promise (startDriverBin "chromedriver" 4445 (Spawned {| pid := 7 |})
             [StdoutData "Starting"; WaitPortFulfilled])
  = Fulfilled {| pid := 7 |} /\
  replies (on_ipc_example "chromedriver" (Spawned {| pid := 7 |})
             [StdoutData "Starting"; WaitPortFulfilled]
             (ExecuteAsyncThrew "script timeout"))
  = [("ipc-example", "pong")].
Proof.
  split; [reflexivity|].
  exact (proj1 (proj1 (reply_follows_driver_resolution "chromedriver"
    (Spawned {| pid := 7 |}) [StdoutData "Starting"; WaitPortFulfilled]
    (ExecuteAsyncThrew "script timeout")) {| pid := 7 |} eq_refl)).
Defined.

(** C7, as stated, fails: a driver that writes to standard error only and
    keeps running never lets the listener reach its reply. *)
Lemma no_reply_while_driver_pending :
  replies (on_ipc_example "chromedriver" (Spawned {| pid := 7 |})
             [StderrData "Starting"] (GotUserAgent "Mozilla/5.0"))
  <> [("ipc-example", "pong")].
Proof. vm_compute. discriminate. Qed.

(** ** More on [startDriverBin] *)

Lemma settled_probe_fold port program (tr : list signal) (s : state) :
  isFirst s = false -> (forall p, probe s <> Polling p) ->
  probe (fold_left (deliver port program) tr s) = probe s.
Proof.
  intros Hf Hp. now destruct (settled_fold port program tr s Hf Hp) as (_ & E & _).
Qed.

(** An exit with a code other than zero (a number, or [null] after a
    signal), as the first meaningful signal, rejects the promise with
    [Exit code: <code>]; whatever follows, the promise keeps that rejection
    and no probe is ever started. *)
Theorem nonzero_exit_first_rejects
    (bin : string) (port : Z) (program : ChildProcess)
    (pre post : list signal) (code : exit_code) :
  forallb silent pre = true -> code <> Some 0%Z ->
  promise (startDriverBin bin port (Spawned program)
             (pre ++ ProcessExit code :: post))
  = RejectedWith (BadExitCode code) /\
  rejection_message (BadExitCode code)
  = "Exit code: " ++ exit_code_toString code /\
  probe (startDriverBin bin port (Spawned program)
           (pre ++ ProcessExit code :: post)) = NotStarted.
Proof.
  intros Hpre Hcode. unfold startDriverBin.
  destruct (listening_run port program pre Hpre) as (Hf & Hp & Hc & _).
  assert (Z : is_zero code = false).
  { destruct code as [n|]; simpl; [|reflexivity].
    apply Z.eqb_neq. intros ->. now apply Hcode. }
  destruct (exit_first port program _ code Hf Hc) as [E Ep].
  rewrite Z in E. rewrite Hp in Ep.
  rewrite run_app. cbn [fold_left].
  set (s1 := deliver port program (run port program pre) (ProcessExit code))
    in *.
  assert (F : isFirst s1 = false)
    by (unfold s1; rewrite isFirst_deliver, Hf; reflexivity).
  assert (N : forall q, probe s1 <> Polling q)
    by (intros q; rewrite Ep; discriminate).
  destruct (settled_fold port program post s1 F N) as (_ & G2 & G3).
  split; [|split]; [| reflexivity | congruence].
  now rewrite (promise_of_calls _ _ (eq_trans G3 E)).
Qed.

Lemma nonzero_exit_first_rejects_witness :
  forallb silent [StderrData "cannot bind"] = true /\
  promise (startDriverBin "chromedriver" 4445 (Spawned {| pid := 7 |})
             ([StderrData "cannot bind"] ++ ProcessExit None
              :: [StdoutData "late"; WaitPortFulfilled]))
  = RejectedWith (BadExitCode None).
Proof.
  split; [reflexivity|].
  refine (proj1 (nonzero_exit_first_rejects "chromedriver" 4445 {| pid := 7 |}
    [StderrData "cannot bind"] [StdoutData "late"; WaitPortFulfilled] None
    eq_refl _)).
  discriminate.
Defined.

(** A process error as the first meaningful signal rejects the promise with
    that very error; a later exit, even a clean one, and later output do not
    change it, and no probe is ever started. *)
Theorem process_error_first_rejects
    (bin : string) (port : Z) (program : ChildProcess)
    (pre post : list signal) (err : string) :
  forallb silent pre = true ->
  promise (startDriverBin bin port (Spawned program)
             (pre ++ ProcessError err :: post))
  = RejectedWith (ProcessErrored err) /\
  rejection_message (ProcessErrored err) = err /\
  probe (startDriverBin bin port (Spawned program)
           (pre ++ ProcessError err :: post)) = NotStarted.
Proof.
  intros Hpre. unfold startDriverBin.
  destruct (listening_run port program pre Hpre) as (Hf & Hp & Hc & _).
  rewrite run_app. cbn [fold_left].
  set (s1 := deliver port program (run port program pre) (ProcessError err)).
  assert (E : settle_calls s1 = [Rejected (ProcessErrored err)]
              /\ probe s1 = NotStarted /\ isFirst s1 = false).
  { unfold s1. handlers. rewrite Hf; simpl. now rewrite Hc, Hp. }
  destruct E as (E1 & E2 & E3).
  assert (N : forall q, probe s1 <> Polling q)
    by (intros q; rewrite E2; discriminate).
  destruct (settled_fold port program post s1 E3 N) as (_ & G2 & G3).
  split; [|split]; [| reflexivity | congruence].
  now rewrite (promise_of_calls _ _ (eq_trans G3 E1)).
Qed.

Lemma process_error_first_rejects_witness :
  forallb silent [ProcessClose] = true /\
  promise (startDriverBin "chromedriver" 4445 (Spawned {| pid := 7 |})
             ([ProcessClose] ++ ProcessError "spawn ENOENT"
              :: [ProcessExit (Some 0%Z)]))
  = RejectedWith (ProcessErrored "spawn ENOENT").
Proof.
  split; [reflexivity|].
  exact (proj1 (process_error_first_rejects "chromedriver" 4445 {| pid := 7 |}
    [ProcessClose] [ProcessExit (Some 0%Z)] "spawn ENOENT" eq_refl)).
Defined.

(** The guard is set exactly as long as no standard-output chunk, process
    error or exit has been delivered; once cleared it is never set again. *)
Theorem guard_set_until_first_meaningful
    (bin : string) (port : Z) (program : ChildProcess)
    (tr post : list signal) :
  isFirst (startDriverBin bin port (Spawned program) tr)
  = negb (existsb meaningful tr) /\
  (isFirst (startDriverBin bin port (Spawned program) tr) = false ->
   isFirst (startDriverBin bin port (Spawned program) (tr ++ post)) = false).
Proof.
  unfold startDriverBin. rewrite !isFirst_run. split.
  - induction tr as [|ev tr IH]; simpl; [reflexivity|].
    rewrite IH. unfold silent. now rewrite negb_orb.
  - intros H. rewrite forallb_app, H. reflexivity.
Qed.

Lemma guard_set_until_first_meaningful_witness :
  isFirst (startDriverBin "chromedriver" 4445 (Spawned {| pid := 7 |})
             [StderrData "x"; ProcessExit (Some 0%Z)]) = false /\
  isFirst (startDriverBin "chromedriver" 4445 (Spawned {| pid := 7 |})
             ([StderrData "x"; ProcessExit (Some 0%Z)] ++ [ProcessClose]))
  = false.
Proof.
  split; [reflexivity|].
  exact (proj2 (guard_set_until_first_meaningful "chromedriver" 4445
    {| pid := 7 |} [StderrData "x"; ProcessExit (Some 0%Z)] [ProcessClose])
    eq_refl).
Defined.

Lemma probe_rank_deliver port program (s : state) (ev : signal) :
  phase port program s ->
  probe_rank (probe s) <= probe_rank (probe (deliver port program s ev)).
Proof.
  intros H; destruct H; destruct ev; handlers;
    try (destruct (is_zero code); [destruct (Js.position_is _ _)|]);
    simpl; lia.
Qed.

(** Along any run the probe only moves forward, from not started to polling
    to finished: a probe that is polling or finished is never reset, and a
    finished probe is never polled again. Whenever it exists, its options are
    the invocation's port, host [localhost] and timeout 3000. *)
Theorem probe_only_moves_forward
    (bin : string) (port : Z) (program : ChildProcess)
    (tr post : list signal) :
  probe_rank (probe (startDriverBin bin port (Spawned program) tr))
  <= probe_rank (probe (startDriverBin bin port (Spawned program)
                          (tr ++ post))) /\
  forall p,
    probe (startDriverBin bin port (Spawned program) tr) = Polling p \/
    probe (startDriverBin bin port (Spawned program) tr) = Finished p ->
    p = {| wp_port := port; wp_host := "localhost"; wp_timeout := 3000 |}.
Proof.
  unfold startDriverBin. split; [|intros p; apply probe_params].
  induction post as [|ev post IH] using rev_ind.
  - rewrite app_nil_r. lia.
  - rewrite app_assoc, run_snoc.
    pose proof (probe_rank_deliver port program
                  (run port program (tr ++ post)) ev
                  (phase_run port program (tr ++ post))).
    lia.
Qed.

Lemma probe_only_moves_forward_witness :
  probe (startDriverBin "chromedriver" 4445 (Spawned {| pid := 7 |})
           [StdoutData "a"; StdoutData "b"])
  = Polling (waitPort_params 4445) /\
  waitPort_params 4445
  = {| wp_port := 4445; wp_host := "localhost"; wp_timeout := 3000 |}.
Proof.
  split; [reflexivity|].
  exact (proj2 (probe_only_moves_forward "chromedriver" 4445 {| pid := 7 |}
    [StdoutData "a"; StdoutData "b"] []) (waitPort_params 4445)
    (or_introl eq_refl)).
Defined.

Lemma output_grows port program (tr post : list signal) :
  exists l,
    output (run port program (tr ++ post))
    = (output (run port program tr) ++ l)%list.
Proof.
  induction post as [|ev post IH] using rev_ind.
  - exists []. now rewrite !app_nil_r.
  - destruct IH as [l El]. rewrite app_assoc, run_snoc.
    destruct (output_deliver port program (run port program (tr ++ post)) ev)
      as [l' El'].
    exists (l ++ l')%list. now rewrite El', El, app_assoc.
Qed.

(** Every process error and every close of the process is written to the
    console, whether or not it decides the outcome: the ['error'] listener
    logs before it tests the guard, the ['close'] listener does nothing
    else. *)
Theorem process_errors_and_closes_are_logged
    (bin : string) (port : Z) (program : ChildProcess) (tr : list signal) :
  (forall err, In (ProcessError err) tr ->
     In (ConsoleLog ["WEBDRIVER ERROR"; err])
        (output (startDriverBin bin port (Spawned program) tr))) /\
  (In ProcessClose tr ->
     In (ConsoleLog ["BROWSER WINDOW CLOSED"])
        (output (startDriverBin bin port (Spawned program) tr))).
Proof.
  unfold startDriverBin.
  assert (G : forall ev line,
            (forall s, In line (output (deliver port program s ev))) ->
            In ev tr -> In line (output (run port program tr))).
  { intros ev line Hline Hin. apply in_split in Hin as (pre & post & ->).
    destruct (output_grows port program (pre ++ [ev]) post) as [l El].
    rewrite <- app_assoc in El. simpl in El. rewrite El.
    apply in_or_app. left. rewrite run_snoc. apply Hline. }
  split.
  - intros err. apply G. intros s. handlers.
    destruct (isFirst s); simpl; apply in_elt.
  - apply G. intros s. handlers. apply in_elt.
Qed.

Lemma process_errors_and_closes_are_logged_witness :
  In (ProcessError "EPIPE") [ProcessExit (Some 1%Z); ProcessError "EPIPE"] /\
  In (ConsoleLog ["WEBDRIVER ERROR"; "EPIPE"])
     (output (startDriverBin "chromedriver" 4445 (Spawned {| pid := 7 |})
                [ProcessExit (Some 1%Z); ProcessError "EPIPE"])).
Proof.
  split; [right; left; reflexivity|].
  exact (proj1 (process_errors_and_closes_are_logged "chromedriver" 4445
    {| pid := 7 |} [ProcessExit (Some 1%Z); ProcessError "EPIPE"]) "EPIPE"
    (or_intror (or_introl eq_refl))).
Defined.

(** Whenever the promise is resolved, one of two things happened: an exit
    with code zero was the first meaningful signal and the error-stream text
    captured before it does not begin with ['Error:'] (the handle is then
    that of a process that has ended); or a standard-output chunk was the
    first meaningful signal and the fulfilment of [wait-port]'s promise
    followed it. By that package's contract a connection and an elapsed
    timeout both fulfil the promise, so the port need not be open. *)
Theorem resolution_has_one_of_two_causes
    (bin : string) (port : Z) (sp : spawn_result) (tr : list signal)
    (v : ChildProcess) :
  promise (startDriverBin bin port sp tr) = Fulfilled v ->
  (exists pre post,
     tr = (pre ++ ProcessExit (Some 0%Z) :: post)%list /\
     forallb silent pre = true /\
     String.prefix "Error:" (stderr_text pre) = false) \/
  (exists pre data mid post,
     tr = (pre ++ StdoutData data :: mid ++ WaitPortFulfilled :: post)%list /\
     forallb silent pre = true /\ forallb from_process mid = true).
Proof.
  intros H.
  assert (Hin : In (Resolved v) (settle_calls (startDriverBin bin port sp tr))).
  { unfold promise in H.
    destruct (settle_calls _) as [|[w|r] l]; try discriminate.
    injection H as ->. now left. }
  clear H. destruct sp as [program|err]; simpl in Hin;
    [|destruct Hin as [E|[]]; discriminate].
  revert Hin. induction tr as [|ev tr IH] using rev_ind; [intros []|].
  rewrite run_snoc. intros H.
  assert (Old : In (Resolved v) (settle_calls (run port program tr)) ->
    (exists pre post,
       (tr ++ [ev] = pre ++ ProcessExit (Some 0%Z) :: post)%list /\
       forallb silent pre = true /\
       String.prefix "Error:" (stderr_text pre) = false) \/
    (exists pre data mid post,
       (tr ++ [ev]
        = pre ++ StdoutData data :: mid ++ WaitPortFulfilled :: post)%list /\
       forallb silent pre = true /\ forallb from_process mid = true)).
  { intros O. destruct (IH O) as [(pre & post & -> & A & B)
                                 |(pre & d & mid & post & -> & A & B)].
    - left. exists pre, (post ++ [ev])%list. rewrite <- app_assoc. auto.
    - right. exists pre, d, mid, (post ++ [ev])%list.
      rewrite <- app_assoc. simpl. rewrite <- app_assoc. auto. }
  assert (Hl := listening_run port program tr).
  rewrite <- isFirst_run with (port := port) (program := program) in Hl.
  assert (Hpo := polling_origin port program tr).
  set (s := run port program tr) in *.
  destruct ev; handlers.
  - destruct (isFirst s); simpl in H; auto.
  - auto.
  - destruct (isFirst s); simpl in H; auto.
    apply in_app_or in H as [H|[H|[]]]; auto; discriminate.
  - auto.
  - destruct (isFirst s) eqn:Hf; simpl in H; auto.
    destruct (is_zero code) eqn:Z;
      [destruct (Js.position_is _ _) eqn:P|]; simpl in H;
      apply in_app_or in H as [H|[H|[]]]; auto; try discriminate.
    destruct (Hl eq_refl) as (_ & _ & _ & T).
    left. exists tr, []. rewrite (is_zero_true _ Z).
    rewrite indexOf_zero_prefix, T in P.
    repeat split; auto. unfold s in Hf. now rewrite isFirst_run in Hf.
  - destruct (probe s) eqn:Ep; simpl in H; auto.
    apply in_app_or in H as [H|[H|[]]]; auto.
    destruct (Hpo params eq_refl) as (pre & d & mid & -> & A & B).
    right. exists pre, d, mid, []. rewrite <- app_assoc. auto.
  - destruct (probe s); simpl in H; auto.
    apply in_app_or in H as [H|[H|[]]]; auto; discriminate.
Qed.

Lemma resolution_has_one_of_two_causes_witness :
  promise (startDriverBin "chromedriver" 4445 (Spawned {| pid := 7 |})
             [StderrData "warning: Error: x"; ProcessExit (Some 0%Z)])
  = Fulfilled {| pid := 7 |} /\
  ((exists pre post,
      [StderrData "warning: Error: x"; ProcessExit (Some 0%Z)]
      = (pre ++ ProcessExit (Some 0%Z) :: post)%list /\
      forallb silent pre = true /\
      String.prefix "Error:" (stderr_text pre) = false) \/
   (exists pre data mid post,
      [StderrData "warning: Error: x"; ProcessExit (Some 0%Z)]
      = (pre ++ StdoutData data :: mid ++ WaitPortFulfilled :: post)%list /\
      forallb silent pre = true /\ forallb from_process mid = true)).
Proof.
  split; [reflexivity|].
  exact (resolution_has_one_of_two_causes "chromedriver" 4445
    (Spawned {| pid := 7 |})
    [StderrData "warning: Error: x"; ProcessExit (Some 0%Z)] {| pid := 7 |}
    eq_refl).
Defined.

(** ** More on the ['ipc-example'] listener *)

(** The listener sends at most one reply, always ['pong'] on
    ['ipc-example'], and only after [startDriverBin] was fulfilled with the
    handle of the process spawned for this message; it writes to the console
    only when the WebDriver session threw. *)
Theorem reply_only_after_driver_ready
    (bin : string) (sp : spawn_result) (tr : list signal) (w : webdriver_run) :
  (replies (on_ipc_example bin sp tr w) = [] \/
   replies (on_ipc_example bin sp tr w) = [("ipc-example", "pong")]) /\
  (replies (on_ipc_example bin sp tr w) <> [] ->
   exists program,
     sp = Spawned program /\ decisive tr = true /\
     promise (startDriverBin bin 4445 sp tr) = Fulfilled program) /\
  (listener_output (on_ipc_example bin sp tr w) <> [] ->
   exists e, (w = RemoteThrew e \/ w = ExecuteAsyncThrew e) /\
     listener_output (on_ipc_example bin sp tr w)
     = [ConsoleLog ["ERROR IN WEBDRIVER"; e]]).
Proof.
  unfold on_ipc_example.
  destruct (promise (startDriverBin bin 4445 sp tr)) as [|v|r] eqn:E; simpl.
  - split; [now left|]. split; intros H; now destruct H.
  - split; [now right|]. split.
    + intros _.
      assert (Hsp : sp = Spawned v).
      { destruct sp as [program|err]; simpl in E.
        - unfold promise in E.
          destruct (phase_run 4445 program tr); simpl in E;
            try discriminate; now injection E as ->.
        - discriminate. }
      subst sp. exists v. repeat split; auto.
      destruct (decisive tr) eqn:D; [reflexivity|].
      simpl in E. unfold promise in E.
      pose proof (listening_count 4445 v tr (spawned_state)
                    eq_refl eq_refl eq_refl) as L.
      rewrite D in L. fold (run 4445 v tr) in L.
      destruct (settle_calls (run 4445 v tr)); simpl in L; discriminate.
    + destruct w; simpl; intros H; try (now destruct H); eauto.
  - split; [now left|]. split; intros H; now destruct H.
Qed.

Lemma reply_only_after_driver_ready_witness :
  replies (on_ipc_example "chromedriver" (Spawned {| pid := 7 |})
             [StdoutData "Starting"; WaitPortFulfilled] (GotUserAgent "UA"))
  <> [] /\
  exists program,
    Spawned {| pid := 7 |} = Spawned program /\
    decisive [StdoutData "Starting"; WaitPortFulfilled] = true /\
    promise (startDriverBin "chromedriver" 4445 (Spawned {| pid := 7 |})
               [StdoutData "Starting"; WaitPortFulfilled])
    = Fulfilled program.
Proof.
  split; [discriminate|].
  refine (proj1 (proj2 (reply_only_after_driver_ready "chromedriver"
    (Spawned {| pid := 7 |}) [StdoutData "Starting"; WaitPortFulfilled]
    (GotUserAgent "UA"))) _).
  discriminate.
Defined.

(** ** The application's windows *)

Lemma app_run_snoc (h : Host) (tr : list app_event) (ev : app_event) :
  app_run h (tr ++ [ev]) = app_step h (app_run h tr) ev.
Proof. unfold app_run. now rewrite fold_left_app. Qed.

Lemma app_run_app (h : Host) (tr1 tr2 : list app_event) :
  app_run h (tr1 ++ tr2) = fold_left (app_step h) tr2 (app_run h tr1).
Proof. unfold app_run. apply fold_left_app. Qed.

Ltac app_handlers :=
  unfold app_step, on_ready, on_activate, on_extensions_installed,
    on_ready_to_show, on_closed, on_window_open, on_window_all_closed,
    createWindow, createWindow_body, installExtensions, AppUpdater, perform,
    is_open in *; simpl in *.

Lemma is_open_In (w : nat) (a : app) :
  is_open w a = true <-> In w (open_windows a).
Proof.
  unfold is_open. rewrite existsb_exists. split.
  - intros (x & Hin & E). apply Nat.eqb_eq in E. now subst.
  - intros H. exists w. split; [exact H | apply Nat.eqb_refl].
Qed.

Lemma mainWindow_inv_step (h : Host) (a : app) (ev : app_event) :
  (forall w, mainWindow a = Some w -> In w (open_windows a) /\ created a = S w) ->
  forall w, mainWindow (app_step h a ev) = Some w ->
    In w (open_windows (app_step h a ev)) /\ created (app_step h a ev) = S w.
Proof.
  intros Inv w.
  assert (New : Some (created a) = Some w ->
                In w (open_windows a ++ [created a]) /\ S (created a) = S w).
  { intros E. injection E as <-. split; [apply in_elt | reflexivity]. }
  destruct ev; app_handlers.
  - destruct (activate_registered a); [apply Inv|].
    destruct (isDebug h); simpl; [apply Inv | apply New].
  - destruct (activate_registered a); [|apply Inv].
    destruct (mainWindow a) eqn:M; [rewrite M; apply Inv|].
    destruct (isDebug h); simpl; [rewrite ?M; discriminate | apply New].
  - destruct (installing a); [apply Inv|].
    destruct failure; simpl; apply New.
  - destruct (existsb _ _); [|apply Inv].
    destruct (mainWindow a) eqn:M; [|simpl; rewrite ?M; discriminate].
    destruct (truthy _); simpl; rewrite ?M; apply Inv.
  - destruct (existsb _ _); [simpl; discriminate | apply Inv].
  - destruct (existsb _ _); [simpl|]; apply Inv.
  - destruct (negb _); [simpl|]; apply Inv.
Qed.

(** The module's variable never dangles, in debug mode or not: whenever
    [mainWindow] is set, it is the window constructed last, and that window
    is open. *)
Theorem mainWindow_is_newest_open_window
    (h : Host) (tr : list app_event) (w : nat) :
  mainWindow (app_run h tr) = Some w ->
  In w (open_windows (app_run h tr)) /\ created (app_run h tr) = S w.
Proof.
  revert w. induction tr as [|ev tr IH] using rev_ind.
  - discriminate.
  - rewrite app_run_snoc. now apply mainWindow_inv_step.
Qed.

Lemma mainWindow_is_newest_open_window_witness :
  mainWindow (app_run release_host [WhenReady; Closed 0; Activate]) = Some 1 /\
  In 1 (open_windows (app_run release_host [WhenReady; Closed 0; Activate])) /\
  created (app_run release_host [WhenReady; Closed 0; Activate]) = 2.
Proof.
  split; [reflexivity|].
  exact (mainWindow_is_newest_open_window release_host
           [WhenReady; Closed 0; Activate] 1 eq_refl).
Defined.

Lemma single_window_step (h : Host) (a : app) (ev : app_event) :
  isDebug h = false ->
  installing a = 0 /\
  open_windows a = match mainWindow a with Some w => [w] | None => [] end /\
  forallb (fun e => negb (is_uncaught e)) (effects a) = true /\
  (activate_registered a = false -> mainWindow a = None) ->
  installing (app_step h a ev) = 0 /\
  open_windows (app_step h a ev)
  = match mainWindow (app_step h a ev) with Some w => [w] | None => [] end /\
  forallb (fun e => negb (is_uncaught e)) (effects (app_step h a ev)) = true /\
  (activate_registered (app_step h a ev) = false ->
   mainWindow (app_step h a ev) = None).
Proof.
  intros D (I & O & U & R).
  destruct ev; app_handlers; rewrite ?D.
  - destruct (activate_registered a) eqn:A; simpl; rewrite ?A;
      [repeat split; auto|].
    rewrite (R eq_refl) in O. rewrite O. simpl.
    rewrite !forallb_app, U. simpl. repeat split; auto. discriminate.
  - destruct (activate_registered a) eqn:A; simpl; rewrite ?A;
      [|repeat split; auto].
    destruct (mainWindow a) eqn:M; simpl; rewrite ?M, ?A;
      [repeat split; auto; discriminate|].
    rewrite O. simpl. rewrite !forallb_app, U. simpl.
    repeat split; auto. discriminate.
  - rewrite I. repeat split; auto.
  - destruct (existsb _ _) eqn:E; [|repeat split; auto].
    destruct (mainWindow a) eqn:M.
    + destruct (truthy _); simpl; rewrite ?M, ?forallb_app, ?U; simpl;
        repeat split; auto; intros A; specialize (R A); discriminate.
    + rewrite O in E. discriminate.
  - destruct (existsb _ _) eqn:E; [|repeat split; auto]. simpl.
    destruct (mainWindow a) eqn:M; rewrite O in *; simpl in *.
    + rewrite orb_false_r in E. apply Nat.eqb_eq in E. subst.
      rewrite Nat.eqb_refl. simpl. repeat split; auto.
    + discriminate.
  - destruct (existsb _ _); simpl; rewrite ?forallb_app, ?U;
      repeat split; auto.
  - destruct (negb _); simpl; rewrite ?forallb_app, ?U; repeat split; auto.
Qed.

Lemma single_window_run (h : Host) (tr : list app_event) :
  isDebug h = false ->
  installing (app_run h tr) = 0 /\
  open_windows (app_run h tr)
  = match mainWindow (app_run h tr) with Some w => [w] | None => [] end /\
  forallb (fun e => negb (is_uncaught e)) (effects (app_run h tr)) = true /\
  (activate_registered (app_run h tr) = false ->
   mainWindow (app_run h tr) = None).
Proof.
  intros D. induction tr as [|ev tr IH] using rev_ind.
  - unfold app_run, loaded. simpl. rewrite D. simpl.
    repeat split; auto. now destruct (strict_eq _ _).
  - rewrite app_run_snoc. now apply single_window_step.
Qed.

(** Outside debug mode at most one window is open at any time, it is the
    one [mainWindow] holds, no call of [createWindow] is ever suspended, and
    no listener of the module throws. *)
Theorem one_window_outside_debug (h : Host) (tr : list app_event) :
  isDebug h = false ->
  length (open_windows (app_run h tr)) <= 1 /\
  (forall w, In w (open_windows (app_run h tr)) <->
             mainWindow (app_run h tr) = Some w) /\
  installing (app_run h tr) = 0 /\
  forallb (fun e => negb (is_uncaught e)) (effects (app_run h tr)) = true.
Proof.
  intros D. destruct (single_window_run h tr D) as (I & O & U & _).
  rewrite O. destruct (mainWindow (app_run h tr)); simpl;
    repeat split; auto; try lia; try tauto; try discriminate.
  - intros [E|[]]. now subst.
  - intros E. injection E as <-. now left.
Qed.

Lemma one_window_outside_debug_witness :
  isDebug release_host = false /\
  length (open_windows (app_run release_host
            [WhenReady; Activate; Activate; Closed 0; Activate; Activate]))
  <= 1.
Proof.
  split; [reflexivity|].
  exact (proj1 (one_window_outside_debug release_host
    [WhenReady; Activate; Activate; Closed 0; Activate; Activate] eq_refl)).
Defined.

Lemma one_window_like (h : Host) (tr : list app_event) (w : nat) :
  isDebug h = false -> In w (open_windows (app_run h tr)) ->
  mainWindow (app_run h tr) = Some w /\ is_open w (app_run h tr) = true.
Proof.
  intros D Hw. split; [|now apply is_open_In].
  destruct (single_window_run h tr D) as (_ & O & _).
  rewrite O in Hw. destruct (mainWindow (app_run h tr)); simpl in Hw.
  - destruct Hw as [E|[]]. now subst.
  - destruct Hw.
Qed.

(** Outside debug mode the ['ready-to-show'] listener of an open window acts
    on that window: it minimises it when [START_MINIMIZED] is set to any
    non-empty string (['false'] and ['0'] included) and shows it when the
    variable is unset or empty. *)
Theorem ready_to_show_minimizes_on_any_nonempty_value
    (h : Host) (tr : list app_event) (w : nat) :
  isDebug h = false -> In w (open_windows (app_run h tr)) ->
  (forall v, env h "START_MINIMIZED" = Some v -> v <> "" ->
     effects (app_run h (tr ++ [ReadyToShow w]))
     = (effects (app_run h tr) ++ [MinimizeWindow w])%list) /\
  (env h "START_MINIMIZED" = None \/ env h "START_MINIMIZED" = Some "" ->
     effects (app_run h (tr ++ [ReadyToShow w]))
     = (effects (app_run h tr) ++ [ShowWindow w])%list).
Proof.
  intros D Hw. destruct (one_window_like h tr w D Hw) as [M Ho].
  rewrite app_run_snoc. unfold app_step, on_ready_to_show.
  rewrite Ho, M. split.
  - intros v E Hv. rewrite E. simpl.
    destruct (String.eqb_spec v ""); [contradiction | reflexivity].
  - intros [E|E]; rewrite E; reflexivity.
Qed.

Lemma ready_to_show_minimizes_on_any_nonempty_value_witness :
  isDebug release_host = false /\
  In 0 (open_windows (app_run release_host [WhenReady])) /\
  env release_host "START_MINIMIZED" = Some "false" /\
  effects (app_run release_host ([WhenReady] ++ [ReadyToShow 0]))
  = (effects (app_run release_host [WhenReady]) ++ [MinimizeWindow 0])%list.
Proof.
  split; [reflexivity|]. split; [now left|]. split; [reflexivity|].
  refine (proj1 (ready_to_show_minimizes_on_any_nonempty_value release_host
    [WhenReady] 0 eq_refl (or_introl eq_refl)) "false" eq_refl _).
  discriminate.
Defined.

(** ** What every window brings with it *)

Lemma quit_step (h : Host) (a : app) (ev : app_event) :
  length (filter is_quit (effects (app_step h a ev)))
  = length (filter is_quit (effects a))
    + (if is_window_all_closed ev && negb (String.eqb (platform h) "darwin")
       then 1 else 0).
Proof.
  destruct ev; app_handlers;
    repeat match goal with
           | |- context [if ?b then _ else _] => destruct b
           | |- context [match ?x with _ => _ end] => destruct x
           end; simpl;
    rewrite ?filter_app, ?length_app; simpl; lia.
Qed.

(** The application quits only from its ['window-all-closed'] listener, and
    never on macOS: on [darwin] no run calls [app.quit()]; elsewhere it is
    called once for every ['window-all-closed'] event. *)
Theorem quits_on_all_closed_except_darwin (h : Host) (tr : list app_event) :
  length (filter is_quit (effects (app_run h tr)))
  = if String.eqb (platform h) "darwin" then 0
    else length (filter is_window_all_closed tr).
Proof.
  induction tr as [|ev tr IH] using rev_ind.
  - unfold app_run, loaded. simpl.
    destruct (strict_eq _ _), (isDebug h), (String.eqb _ _); reflexivity.
  - rewrite app_run_snoc, quit_step, IH, filter_app, length_app. simpl.
    destruct (String.eqb (platform h) "darwin");
      destruct (is_window_all_closed ev); simpl; lia.
Qed.

Lemma window_effects_step (h : Host) (a : app) (ev : app_event) :
  length (filter is_new_window (effects a)) = created a /\
  length (filter is_update_check (effects a)) = created a /\
  length (filter is_build_menu (effects a)) = created a /\
  (forall w, In w (open_windows a) -> w < created a) /\
  NoDup (open_windows a) ->
  length (filter is_new_window (effects (app_step h a ev)))
  = created (app_step h a ev) /\
  length (filter is_update_check (effects (app_step h a ev)))
  = created (app_step h a ev) /\
  length (filter is_build_menu (effects (app_step h a ev)))
  = created (app_step h a ev) /\
  (forall w, In w (open_windows (app_step h a ev)) ->
     w < created (app_step h a ev)) /\
  NoDup (open_windows (app_step h a ev)).
Proof.
  intros (N & U & B & L & D).
  assert (Fresh : (forall w, In w (open_windows a ++ [created a]) ->
                     w < S (created a))
                  /\ NoDup (open_windows a ++ [created a])).
  { split.
    - intros w Hw. apply in_app_or in Hw as [Hw|[<-|[]]]; [|lia].
      specialize (L w Hw). lia.
    - apply NoDup_app; repeat split; auto.
      + constructor; [intros []|constructor].
      + intros w Hw [<-|[]]. specialize (L _ Hw). lia. }
  destruct Fresh as [L' D'].
  destruct ev; app_handlers;
    repeat match goal with
           | |- context [if ?b then _ else _] => destruct b
           | |- context [match ?x with _ => _ end] => destruct x
           end; simpl;
    rewrite ?filter_app, ?length_app; simpl;
    repeat split; auto; try lia.
  - intros w0 Hw. apply filter_In in Hw as [Hw _]. now apply L.
  - now apply NoDup_filter.
Qed.

Lemma per_window_step (h : Host) (a : app) (ev : app_event) (w : nat) :
  length (filter (constructs_window w) (effects a))
  = (if Nat.ltb w (created a) then 1 else 0) /\
  length (filter (loads_url_into w) (effects a))
  = (if Nat.ltb w (created a) then 1 else 0) /\
  length (filter (builds_menu_for w) (effects a))
  = (if Nat.ltb w (created a) then 1 else 0) ->
  length (filter (constructs_window w) (effects (app_step h a ev)))
  = (if Nat.ltb w (created (app_step h a ev)) then 1 else 0) /\
  length (filter (loads_url_into w) (effects (app_step h a ev)))
  = (if Nat.ltb w (created (app_step h a ev)) then 1 else 0) /\
  length (filter (builds_menu_for w) (effects (app_step h a ev)))
  = (if Nat.ltb w (created (app_step h a ev)) then 1 else 0).
Proof.
  intros (N & U & B).
  assert (Fresh : (if Nat.ltb w (S (created a)) then 1 else 0)
                  = (if Nat.ltb w (created a) then 1 else 0)
                    + (if Nat.eqb w (created a) then 1 else 0)).
  { destruct (Nat.ltb_spec w (S (created a))), (Nat.ltb_spec w (created a)),
      (Nat.eqb_spec w (created a)); lia. }
  destruct ev; app_handlers;
    repeat match goal with
           | |- context [if activate_registered a then _ else _] =>
               destruct (activate_registered a)
           | |- context [if isDebug h then _ else _] => destruct (isDebug h)
           | |- context [if existsb ?f ?l then _ else _] =>
               destruct (existsb f l)
           | |- context [if truthy ?v then _ else _] => destruct (truthy v)
           | |- context [if negb ?b then _ else _] => destruct (negb b)
           | |- context [match installing a with _ => _ end] =>
               destruct (installing a)
           | |- context [match ?x with Some _ => _ | None => _ end] =>
               destruct x
           end; simpl;
    rewrite ?filter_app, ?length_app, ?Fresh, ?N, ?U, ?B; simpl;
    try (repeat split; lia);
    destruct (Nat.eqb w (created a)); simpl; repeat split; lia.
Qed.

(** Every window the module constructs is constructed once, loads its page
    once, gets exactly one menu, its own, and starts exactly one update
    check; no menu is built and no page loaded for a window that was not
    constructed. The open windows are distinct and were all constructed by
    the module. *)
Theorem every_window_builds_menu_and_checks_updates
    (h : Host) (tr : list app_event) :
  (forall w,
     length (filter (constructs_window w) (effects (app_run h tr)))
     = (if Nat.ltb w (created (app_run h tr)) then 1 else 0) /\
     length (filter (loads_url_into w) (effects (app_run h tr)))
     = (if Nat.ltb w (created (app_run h tr)) then 1 else 0) /\
     length (filter (builds_menu_for w) (effects (app_run h tr)))
     = (if Nat.ltb w (created (app_run h tr)) then 1 else 0)) /\
  length (filter is_new_window (effects (app_run h tr)))
  = created (app_run h tr) /\
  length (filter is_update_check (effects (app_run h tr)))
  = created (app_run h tr) /\
  length (filter is_build_menu (effects (app_run h tr)))
  = created (app_run h tr) /\
  (forall w, In w (open_windows (app_run h tr)) ->
     w < created (app_run h tr)) /\
  NoDup (open_windows (app_run h tr)).
Proof.
  split.
  - intros w. induction tr as [|ev tr IH] using rev_ind.
    + unfold app_run, loaded. simpl.
      destruct (strict_eq _ _), (isDebug h); simpl; auto.
    + rewrite app_run_snoc. now apply per_window_step.
  - induction tr as [|ev tr IH] using rev_ind.
    + unfold app_run, loaded. simpl.
      destruct (strict_eq _ _), (isDebug h); simpl;
        repeat split; auto; try (intros w []); constructor.
    + rewrite app_run_snoc. now apply window_effects_step.
Qed.

Lemma every_window_builds_menu_and_checks_updates_witness :
  In 1 (open_windows (app_run release_host [WhenReady; Closed 0; Activate]))
  /\ 1 < created (app_run release_host [WhenReady; Closed 0; Activate])
  /\ length (filter (builds_menu_for 1)
               (effects (app_run release_host [WhenReady; Closed 0; Activate])))
     = 1.
Proof.
  split; [now left|]. split.
  - exact (proj1 (proj2 (proj2 (proj2 (proj2
      (every_window_builds_menu_and_checks_updates release_host
         [WhenReady; Closed 0; Activate]))))) 1 (or_introl eq_refl)).
  - exact (proj2 (proj2 (proj1
      (every_window_builds_menu_and_checks_updates release_host
         [WhenReady; Closed 0; Activate]) 1))).
Defined.

(** ** Debug mode *)






(** ** What the sinks receive *)

Lemma rejection_is_logged_witness :
  In (Rejected (BadExitCode (Some 2%Z)))
     (settle_calls (startDriverBin "chromedriver" 4445 (Spawned {| pid := 7 |})
                      [StderrData "usage"; ProcessExit (Some 2%Z)])) /\
  In (ConsoleLog ["Exit code: 2"])
     (output (startDriverBin "chromedriver" 4445 (Spawned {| pid := 7 |})
                [StderrData "usage"; ProcessExit (Some 2%Z)])).
Proof.
  split; [now left|].
  exact (rejection_is_logged "chromedriver" 4445 (Spawned {| pid := 7 |})
    [StderrData "usage"; ProcessExit (Some 2%Z)] (BadExitCode (Some 2%Z))
    (or_introl eq_refl)).
Defined.

(** Each chunk writes one line that carries the whole text captured so far,
    not the chunk alone, under the label [WEBDRIVER STDERR] for both pipes:
    standard-output chunks go to [log.debug], standard-error chunks to the
    console. *)
Theorem chunk_logs_whole_captured_text
    (bin : string) (port : Z) (program : ChildProcess)
    (tr : list signal) (data : string) :
  output (startDriverBin bin port (Spawned program) (tr ++ [StdoutData data]))
  = (output (startDriverBin bin port (Spawned program) tr)
     ++ [LogDebug ["WEBDRIVER STDERR"; (captured_text tr ++ data)%string]])%list
  /\
  output (startDriverBin bin port (Spawned program) (tr ++ [StderrData data]))
  = (output (startDriverBin bin port (Spawned program) tr)
     ++ [ConsoleLog ["WEBDRIVER STDERR";
                     (captured_text tr ++ data)%string]])%list.
Proof.
  unfold startDriverBin. rewrite !run_snoc.
  rewrite <- (stderr_run port program tr). split; handlers.
  - destruct (isFirst (run port program tr)); reflexivity.
  - reflexivity.
Qed.
